(** * camel/model_backend.py: model backends behind one interface

    A shallow embedding of [src/camel/model_backend.py]: the Ernie message
    converter and response normaliser, the OpenAI token budget and its
    effect on the stored configuration, the stub backend and the factory.

    Python [dict]s that are read and written by key are [gmap string _];
    dict literals that make up a response are kept as association lists in
    source order inside [pyval]; Python [int]s are [Z]; exceptions are an
    explicit error type. *)

From Stdlib Require Import ZArith String Ascii List Lia.
From stdpp Require Import gmap strings list fin_maps.

Set Warnings "-register-all".

Open Scope string_scope.
Open Scope Z_scope.
Open Scope list_scope.

(** ** Python values and exceptions *)

(** The values that occur in configurations and responses.  [PFloat] is the
    bit pattern of a float, which this layer never inspects. *)
Inductive pyval : Type :=
  | PNone
  | PBool (b : bool)
  | PInt (z : Z)
  | PFloat (bits : Z)
  | PStr (s : string)
  | PList (l : list pyval)
  | PDict (d : list (string * pyval)).

(** The exceptions this module raises itself or lets through. *)
Inductive exn : Type :=
  | KeyError (key : string)
  | TypeError (msg : string)
  | ValueError (msg : string)
  | RuntimeError (msg : string)
  | VendorError (msg : string).

(** [d[k]] on a dict literal: the first binding of [k], [KeyError] without one. *)
Fixpoint dict_get (k : string) (d : list (string * pyval)) : exn + pyval :=
  match d with
  | [] => inl (KeyError k)
  | (k', v) :: d' => if String.eqb k k' then inr v else dict_get k d'
  end.

Definition getitem (v : pyval) (k : string) : exn + pyval :=
  match v with
  | PDict d => dict_get k d
  | _ => inl (TypeError "object is not subscriptable by a string")
  end.

(** Errors as values: [inl e] is a raised exception. *)
Definition result (A : Type) : Type := (exn + A)%type.

Definition rbind {A B : Type} (r : result A) (k : A -> result B) : result B :=
  match r with
  | inl e => inl e
  | inr a => k a
  end.

Declare Scope result_scope.
Delimit Scope result_scope with result.
Notation "'let?' x ':=' r 'in' k" := (rbind r (fun x => k))
  (at level 10, x pattern, r at level 100, k at level 200) : result_scope.

(** A list comprehension whose element expression may raise: the first
    exception ends it. *)
Fixpoint comprehension {A B : Type} (f : A -> result B) (l : list A) : result (list B) :=
  match l with
  | [] => inr []
  | x :: tl =>
      (let? y := f x in
       let? ys := comprehension f tl in
       inr (y :: ys))%result
  end.

(** [for x in v]: the items a value yields when iterated. *)
Definition iter_items (v : pyval) : result (list pyval) :=
  match v with
  | PList l => inr l
  | PDict d => inr (map (fun kv => PStr (fst kv)) d)
  | PStr s => inr (map (fun c => PStr (String c "")) (list_ascii_of_string s))
  | _ => inl (TypeError "object is not iterable")
  end.

Definition as_str (v : pyval) : result string :=
  match v with
  | PStr s => inr s
  | _ => inl (TypeError "sequence item: expected str instance")
  end.

Definition newline : string := String "010"%char "".

(** ["\n".join(items)]: every item must be a [str]. *)
Definition join_lines (items : list pyval) : result string :=
  (let? strs := comprehension as_str items in
   inr (String.concat newline strs))%result.

(** ** Messages *)

(** A message dict with its two keys, [message["role"]] and
    [message["content"]]. *)
Record Message : Type := mkMessage { role : string; content : string }.

#[global] Instance Message_eq_dec : EqDecision Message.
Proof. solve_decision. Defined.

(** The same message as the Python dict it is. *)
Definition message_dict (m : Message) : pyval :=
  PDict [("role", PStr (role m)); ("content", PStr (content m))].

Definition messages_list (l : list Message) : pyval := PList (map message_dict l).

(** Python's [sub in s] on strings: [sub] occurs in [s] at some position. *)
Fixpoint str_in (sub s : string) : bool :=
  String.prefix sub s ||
  match s with
  | EmptyString => false
  | String _ s' => str_in sub s'
  end.

(** ** ModelType *)

(** Modelled from the spec: the enumeration [ModelType] is declared in
    camel/typing.py, which is not among the sources; the spec's Model
    Registry calls it "a static enumeration of supported model
    identifiers".  Its members are the ones model_backend.py names, and
    [OtherMember] stands for any member that file does not name.  What
    [ModelType.value] returns is a parameter of [OpenAIModel.run]. *)
Inductive ModelType : Type :=
  | GPT_3_5_TURBO
  | GPT_3_5_TURBO_NEW
  | GPT_4
  | GPT_4_32k
  | GPT_4_TURBO
  | GPT_4_TURBO_V
  | Ernie
  | STUB
  | OtherMember (name : string).

#[global] Instance ModelType_eq_dec : EqDecision ModelType.
Proof. solve_decision. Defined.

(** ** The store of dict objects and the vendor calls made *)

(** A reference to a dict object: two holders of one [loc] see each other's
    writes. *)
Definition loc : Type := positive.

(** What is passed to the vendor's [create]: the positional arguments and
    the merged keyword arguments. *)
Record VendorRequest : Type := mkRequest {
  req_args : list pyval;
  req_keywords : gmap string pyval
}.

Record world : Type := mkWorld {
  dicts : gmap loc (gmap string pyval);
  vendor_calls : list VendorRequest
}.

(** A computation that reads and writes the world and may raise. *)
Definition M (A : Type) : Type := world -> result A * world.

Definition ret {A : Type} (a : A) : M A := fun w => (inr a, w).

Definition raise {A : Type} (e : exn) : M A := fun w => (inl e, w).

Definition bind {A B : Type} (c : M A) (k : A -> M B) : M B :=
  fun w =>
    match c w with
    | (inl e, w') => (inl e, w')
    | (inr a, w') => k a w'
    end.

Definition lift {A : Type} (r : result A) : M A := fun w => (r, w).

Declare Scope M_scope.
Delimit Scope M_scope with M.
Notation "'let!' x ':=' c 'in' k" := (bind c (fun x => k))
  (at level 10, x pattern, c at level 100, k at level 200) : M_scope.

(** [d[k] = v] on the dict object at [l]. *)
Definition dict_setitem (l : loc) (k : string) (v : pyval) : M unit :=
  fun w =>
    match dicts w !! l with
    | Some d => (inr tt, mkWorld (<[l := <[k := v]> d]> (dicts w)) (vendor_calls w))
    | None => (inl (TypeError "object does not support item assignment"), w)
    end.

(** The current contents of the dict object at [l], for unpacking it. *)
Definition dict_read (l : loc) : M (gmap string pyval) :=
  fun w =>
    match dicts w !! l with
    | Some d => (inr d, w)
    | None => (inl (TypeError "argument after ** must be a mapping"), w)
    end.

(** [m[k]] on a dict read by key. *)
Definition map_getitem {V : Type} (m : gmap string V) (k : string) : result V :=
  match m !! k with
  | Some v => inr v
  | None => inl (KeyError k)
  end.

(** The keywords of a call that unpacks [kwargs], then gives [model], then
    unpacks [config]: they are merged left to right and a keyword given
    twice is a [TypeError]. *)
Definition merge_keywords (kwargs : gmap string pyval) (model : string)
    (config : gmap string pyval) : result (gmap string pyval) :=
  match kwargs !! "model" with
  | Some _ => inl (TypeError "got multiple values for keyword argument")
  | None =>
      let given := <["model" := PStr model]> kwargs in
      if bool_decide (given ##ₘ config)
      then inr (given ∪ config)
      else inl (TypeError "got multiple values for keyword argument")
  end.

(** ** OpenAIModel *)

Module OpenAIModel.

Record t : Type := mk {
  model_type : ModelType;
  model_config_dict : loc
}.

(** [__init__]: the instance keeps the caller's dict object, not a copy. *)
Definition init (model_type : ModelType) (model_config_dict : loc) : t :=
  mk model_type model_config_dict.

(** What [run] uses and this file does not define. *)
Record externals : Type := mkExternals {
  (** the vendor's response object *)
  Response : Type;
  (** [ModelType.value] *)
  value : ModelType -> string;
  (** [tiktoken.encoding_for_model(name)] and the [encode] of what it returns *)
  encoding_for_model : string -> result (string -> result (list Z));
  (** the module's flag [openai_new_api] *)
  openai_new_api : bool;
  (** [client.chat.completions.create] or [openai.ChatCompletion.create] *)
  create : VendorRequest -> result Response;
  (** reading [usage.prompt_tokens], [completion_tokens], [total_tokens] *)
  usage : Response -> result (Z * Z * Z);
  (** [isinstance(response, ChatCompletion)] or [isinstance(response, Dict)] *)
  isinstance_expected : Response -> bool
}.

(** The two [num_max_token_map] literals, lines 98-108 and 130-138. *)
Definition num_max_token_map (openai_new_api : bool) : gmap string Z :=
  if openai_new_api then
    list_to_map
      [("gpt-3.5-turbo", 4096);
       ("gpt-3.5-turbo-16k", 16384);
       ("gpt-3.5-turbo-0613", 4096);
       ("gpt-3.5-turbo-16k-0613", 16384);
       ("gpt-4", 8192);
       ("gpt-4-0613", 8192);
       ("gpt-4-32k", 32768);
       ("gpt-4-1106-preview", 4096);
       ("gpt-4-1106-vision-preview", 4096)]
  else
    list_to_map
      [("gpt-3.5-turbo", 4096);
       ("gpt-3.5-turbo-16k", 16384);
       ("gpt-3.5-turbo-0613", 4096);
       ("gpt-3.5-turbo-16k-0613", 16384);
       ("gpt-4", 8192);
       ("gpt-4-0613", 8192);
       ("gpt-4-32k", 32768)].

(** [num_max_token_map[identifier]]. *)
Definition lookup (openai_new_api : bool) (identifier : string) : result Z :=
  map_getitem (num_max_token_map openai_new_api) identifier.

(** Lines 80-84: the estimate of the prompt's tokens;
    [encoding] is the outcome of [tiktoken.encoding_for_model]. *)
Definition num_prompt_tokens (encoding : result (string -> result (list Z)))
    (messages : pyval) : result Z :=
  (let? items := iter_items messages in
   let? contents := comprehension (fun message => getitem message "content") items in
   let? string := join_lines contents in
   let? encoding := encoding in
   let? tokens := encoding string in
   let num_prompt_tokens := Z.of_nat (length tokens) in
   let gap_between_send_receive := 15 * Z.of_nat (length items) in
   inr (num_prompt_tokens + gap_between_send_receive))%result.

(** Lines 80-84 and 109-110 or 139-140: everything [run] computes before it
    touches the configuration. *)
Definition budget (X : externals) (self : t) (kwargs : gmap string pyval) : result Z :=
  (let? messages := map_getitem kwargs "messages" in
   let? num_prompt_tokens :=
     num_prompt_tokens (encoding_for_model X (value X (model_type self))) messages in
   let? num_max_token := lookup (openai_new_api X) (value X (model_type self)) in
   let num_max_completion_tokens := num_max_token - num_prompt_tokens in
   inr num_max_completion_tokens)%result.

(** The vendor call: the request is recorded, the vendor answers. *)
Definition call_create (X : externals) (request : VendorRequest) : M (Response X) :=
  fun w => (create X request, mkWorld (dicts w) (vendor_calls w ++ [request])).

(** [run]; the [print], the construction of the client and the calls of
    [prompt_cost] and [log_visualize] leave no trace in what is modelled,
    except that the usage counts are read for them. *)
Definition run (X : externals) (self : t) (args : list pyval)
    (kwargs : gmap string pyval) : M (Response X) :=
  (let! num_max_completion_tokens := lift (budget X self kwargs) in
   let! _ := dict_setitem (model_config_dict self) "max_tokens"
               (PInt num_max_completion_tokens) in
   let! config := dict_read (model_config_dict self) in
   let! keywords := lift (merge_keywords kwargs (value X (model_type self)) config) in
   let! response := call_create X (mkRequest args keywords) in
   let! _ := lift (usage X response) in
   if isinstance_expected X response
   then ret response
   else raise (RuntimeError "Unexpected return from OpenAI API"))%M.

End OpenAIModel.

(** ** ErnieModel *)

Module ErnieModel.

Record t : Type := mk {
  model_type : ModelType;
  model_config_dict : loc
}.

Definition init (model_type : ModelType) (model_config_dict : loc) : t :=
  mk model_type model_config_dict.

Section result_format.

(** The response object of erniebot and its method [get_result]. *)
Context {Response : Type} (get_result : Response -> pyval).

Definition result_format_as_openai (response : Response) : pyval :=
  let openai_response :=
    PDict
      [("id", PStr "xxxxxxxxxxxxxxxxxxxxx");
       ("object", PStr "chat.completion");
       ("created", PInt 1);
       ("model", PStr "Ernie");
       ("usage",
         PDict
           [("prompt_tokens", PInt 1);
            ("completion_tokens", PInt 1);
            ("total_tokens", PInt 1)]);
       ("choices",
         PList
           [PDict
              [("message",
                 PDict
                   [("role", PStr "assistant");
                    ("content", get_result response)]);
               ("finish_reason", PStr "stop");
               ("index", PInt 0)]])] in
  openai_response.

End result_format.

(** The state of the loop: [last_message_be_user_flag] and [ernie_messages]. *)
Definition loop_state : Type := (bool * list Message)%type.

(** One iteration of [for message in messages]. *)
Definition loop_body (st : loop_state) (message : Message) : loop_state :=
  let '(last_message_be_user_flag, ernie_messages) := st in
  let role := role message in
  let content := content message in
  if str_in "ass" role then
    (false, ernie_messages ++ [mkMessage "assistant" content])
  else
    let ernie_messages :=
      if last_message_be_user_flag
      then ernie_messages ++ [mkMessage "assistant" "Got it."]
      else ernie_messages in
    (true, ernie_messages ++ [mkMessage "user" content]).

Definition messages_reformat_as_ernie (messages : list Message) : list Message :=
  snd (fold_left loop_body messages (false, [])).

End ErnieModel.

(** ** StubModel *)

Module StubModel.

(** [__init__] takes any arguments and keeps none. *)
Record t : Type := mk { }.

Definition init : t := mk.

Definition ARBITRARY_STRING : string := "Lorem Ipsum".

Definition run (self : t) (args : list pyval) (kwargs : gmap string pyval) : pyval :=
  PDict
    [("id", PStr "stub_model_id");
     ("usage", PDict []);
     ("choices",
       PList
         [PDict
            [("finish_reason", PStr "stop");
             ("message",
               PDict [("content", PStr ARBITRARY_STRING); ("role", PStr "assistant")])]])].

End StubModel.

(** ** ModelFactory *)

(** A backend instance is an instance of one of the three classes. *)
Inductive ModelBackend : Type :=
  | IsOpenAIModel (inst : OpenAIModel.t)
  | IsErnieModel (inst : ErnieModel.t)
  | IsStubModel (inst : StubModel.t).

Module ModelFactory.

Definition default_model_type : ModelType := GPT_3_5_TURBO.

(** The three classes [model_class] ranges over. *)
Inductive model_class : Type := OpenAIModel | ErnieModel | StubModel.

(** [model_class(model_type, model_config_dict)]. *)
Definition instantiate (c : model_class) (model_type : ModelType)
    (model_config_dict : loc) : ModelBackend :=
  match c with
  | OpenAIModel => IsOpenAIModel (OpenAIModel.init model_type model_config_dict)
  | ErnieModel => IsErnieModel (ErnieModel.init model_type model_config_dict)
  | StubModel => IsStubModel StubModel.init
  end.

(** [model_type] is a member of the enumeration or [None]. *)
Definition create (model_type : option ModelType) (model_config_dict : loc)
    : result ModelBackend :=
  (let? model_class :=
     if bool_decide (model_type ∈
          [Some GPT_3_5_TURBO; Some GPT_3_5_TURBO_NEW; Some GPT_4; Some GPT_4_32k;
           Some GPT_4_TURBO; Some GPT_4_TURBO_V; None])
     then inr OpenAIModel
     else if bool_decide (model_type = Some Ernie) then inr ErnieModel
     else if bool_decide (model_type = Some STUB) then inr StubModel
     else inl (ValueError "Unknown model") in
   let model_type :=
     match model_type with
     | None => default_model_type
     | Some model_type => model_type
     end in
   let inst := instantiate model_class model_type model_config_dict in
   inr inst)%result.

End ModelFactory.

(** ** Reading a response in OpenAI format *)

(** [response["choices"]] as a list. *)
Definition choices_of (response : pyval) : result (list pyval) :=
  (let? choices := getitem response "choices" in
   match choices with
   | PList l => inr l
   | _ => inl (TypeError "choices is not a list")
   end)%result.

(** [choice["message"]["content"]]. *)
Definition choice_content (choice : pyval) : result pyval :=
  (let? message := getitem choice "message" in getitem message "content")%result.

(** [response["usage"][field]]. *)
Definition usage_count (response : pyval) (field : string) : result pyval :=
  (let? usage := getitem response "usage" in getitem usage field)%result.

(** ** Properties of a converted message list *)

Definition is_user (m : Message) : bool := String.eqb (role m) "user".
Definition is_assistant (m : Message) : bool := String.eqb (role m) "assistant".

(** Two neighbouring turns are both user turns somewhere in the list. *)
Fixpoint consecutive_users (l : list Message) : bool :=
  match l with
  | [] => false
  | m1 :: tl =>
      match tl with
      | [] => false
      | m2 :: _ => (is_user m1 && is_user m2) || consecutive_users tl
      end
  end.

Definition starts_with_assistant (l : list Message) : bool :=
  match l with
  | [] => false
  | m :: _ => is_assistant m
  end.

Definition starts_with_user (l : list Message) : bool :=
  match l with
  | [] => false
  | m :: _ => is_user m
  end.

(** The filler turn of the converter. *)
Definition filler : Message := mkMessage "assistant" "Got it.".

(** The turn a message is converted to, as the claim words it: an assistant
    turn when the role contains "ass", a user turn otherwise, same content. *)
Definition turn_of (m : Message) : Message :=
  mkMessage (if str_in "ass" (role m) then "assistant" else "user") (content m).

(** What one message contributes to the output, given the flag before it. *)
Definition emitted (flag : bool) (m : Message) : list Message :=
  (if negb (str_in "ass" (role m)) && flag then [filler] else []) ++ [turn_of m].

(** The converter as a recursion on the input that produces the output
    front to back; [flag] is [last_message_be_user_flag]. *)
Fixpoint reformat_from (flag : bool) (messages : list Message) : list Message :=
  match messages with
  | [] => []
  | m :: ms => emitted flag m ++ reformat_from (negb (str_in "ass" (role m))) ms
  end.

(** ** A byte-pair encoder *)

(** tiktoken's encodings are byte-pair encodings; their merge tables are
    data of that library.  This is the algorithm over a given merge table:
    a piece is a byte (0..255) or the product [256 + i] of merge rule [i];
    the adjacent pair of lowest rank, leftmost first, is merged until no
    rule applies. *)
Module BPE.

Fixpoint rank_from (i : nat) (merges : list (Z * Z)) (a b : Z) : option nat :=
  match merges with
  | [] => None
  | (x, y) :: tl =>
      if (x =? a) && (y =? b) then Some i else rank_from (S i) tl a b
  end.

Definition rank (merges : list (Z * Z)) (a b : Z) : option nat := rank_from 0 merges a b.

(** The rank and position of the pair to merge next, with positions
    counted from [pos]. *)
Fixpoint best_pair (merges : list (Z * Z)) (pos : nat) (pieces : list Z)
    : option (nat * nat) :=
  match pieces with
  | [] => None
  | a :: tl =>
      match tl with
      | [] => None
      | b :: _ =>
          match rank merges a b, best_pair merges (S pos) tl with
          | Some r, Some (r', p') => if (r' <? r)%nat then Some (r', p') else Some (r, pos)
          | Some r, None => Some (r, pos)
          | None, later => later
          end
      end
  end.

Fixpoint merge_at (pos : nat) (new : Z) (pieces : list Z) : list Z :=
  match pos, pieces with
  | O, _ :: _ :: tl => new :: tl
  | S p, a :: tl => a :: merge_at p new tl
  | _, _ => pieces
  end.

Fixpoint merge_loop (fuel : nat) (merges : list (Z * Z)) (pieces : list Z) : list Z :=
  match fuel with
  | O => pieces
  | S fuel' =>
      match best_pair merges 0 pieces with
      | None => pieces
      | Some (r, pos) => merge_loop fuel' merges (merge_at pos (256 + Z.of_nat r) pieces)
      end
  end.

Definition bytes_of (s : string) : list Z :=
  map (fun c => Z.of_nat (nat_of_ascii c)) (list_ascii_of_string s).

(** Each merge shortens the list by one, so [String.length s] steps suffice. *)
Definition encode (merges : list (Z * Z)) (s : string) : list Z :=
  merge_loop (String.length s) merges (bytes_of s).

End BPE.

(** Editing a message list: a message added at any position, and content
    appended to the message at any position. *)
Definition add_message (before after : list Message) (m : Message) : list Message :=
  before ++ m :: after.

Definition append_content (m : Message) (extra : string) : Message :=
  mkMessage (role m) (content m +:+ extra).

(** The estimate of lines 80-84 for a list of messages, with the encoding
    that [tiktoken.encoding_for_model] returned. *)
Definition estimate (encode : string -> result (list Z)) (messages : list Message)
    : result Z :=
  OpenAIModel.num_prompt_tokens (inr encode) (messages_list messages).

(** An encoding never returns more than [k] tokens fewer when text is
    inserted into a string. *)
Definition saves_at_most (k : nat) (encode : string -> result (list Z)) : Prop :=
  forall (a x b : string) (t t' : list Z),
    encode (a +:+ b) = inr t ->
    encode (a +:+ x +:+ b) = inr t' ->
    (length t <= length t' + k)%nat.

(** ** What tiktoken returns *)

(** tiktoken is not part of this repository.  For every model of the
    token-window tables [tiktoken.encoding_for_model] gives the encoding
    cl100k_base; these are the token lists it returns for the strings
    that tiktoken's own tests assert (tests/test_encoding.py,
    [test_simple] and [test_simple_regex]), and the empty list for the
    empty string.  The pieces of "today", newline, space are "today", the
    newline (198) and the space (220); with one more newline the white
    space up to the last newline is one piece, and one token. *)
Definition cl100k_sample : list (string * list Z) :=
  [ ("", []);
    ("hello world", [15339; 1917]);
    ("today" +:+ newline +:+ " ", [31213; 198; 220]);
    ("today" +:+ newline +:+ " " +:+ newline, [31213; 27907]);
    ("today" +:+ newline +:+ "  " +:+ newline, [31213; 14211]) ].

Fixpoint sample_lookup (s : string) (sample : list (string * list Z))
    : option (list Z) :=
  match sample with
  | [] => None
  | (s', tokens) :: rest => if String.eqb s s' then Some tokens else sample_lookup s rest
  end.

(** The encoding on the sample; what it returns elsewhere is not recorded
    here, and asking for it is an error. *)
Definition cl100k_encode (s : string) : result (list Z) :=
  match sample_lookup s cl100k_sample with
  | Some tokens => inr tokens
  | None => inl (ValueError "no sample of the encoding for this string")
  end.

(** ** Auxiliary definitions for the statements *)

(** What each message contributes: its own turn, after at most the filler. *)
Definition contribution (m : Message) (chunk : list Message) : Prop :=
  exists pre, chunk = pre ++ [turn_of m] /\ (pre = [] \/ pre = [filler]).

(** The joined contents of a message list. *)
Definition joined (messages : list Message) : string :=
  String.concat newline (map content messages).

(** What stands before and after a message's content in the joined string. *)
Definition lead (before : list Message) : string :=
  match before with
  | [] => ""
  | _ => joined before +:+ newline
  end.

Definition trail (after : list Message) : string :=
  match after with
  | [] => ""
  | _ => newline +:+ joined after
  end.

(** The world after the assignment to [max_tokens]. *)
Definition after_assignment (self : OpenAIModel.t) (config : gmap string pyval)
    (b : Z) (w : world) : world :=
  mkWorld (<[OpenAIModel.model_config_dict self := <["max_tokens" := PInt b]> config]> (dicts w))
          (vendor_calls w).

(** The world after the vendor call. *)
Definition after_call (request : VendorRequest) (w : world) : world :=
  mkWorld (dicts w) (vendor_calls w ++ [request]).

(** What [run] does after a vendor call that returned. *)
Definition check_response (X : OpenAIModel.externals) (response : OpenAIModel.Response X)
    : result (OpenAIModel.Response X) :=
  match OpenAIModel.usage X response with
  | inl e => inl e
  | inr _ =>
      if OpenAIModel.isinstance_expected X response
      then inr response
      else inl (RuntimeError "Unexpected return from OpenAI API")
  end.

(** An instance of [ModelType.value] for the examples: the GPT members get
    keys of the token-window tables, [GPT_4_TURBO] and [GPT_4_TURBO_V] the
    two keys that only the table of the new API has. *)
Definition example_value (m : ModelType) : string :=
  match m with
  | GPT_3_5_TURBO => "gpt-3.5-turbo-16k-0613"
  | GPT_3_5_TURBO_NEW => "gpt-3.5-turbo-16k"
  | GPT_4 => "gpt-4"
  | GPT_4_32k => "gpt-4-32k"
  | GPT_4_TURBO => "gpt-4-1106-preview"
  | GPT_4_TURBO_V => "gpt-4-1106-vision-preview"
  | Ernie => "Ernie"
  | STUB => "stub"
  | OtherMember name => name
  end.

Definition as_int (v : pyval) : result Z :=
  match v with
  | PInt z => inr z
  | _ => inl (TypeError "expected an int")
  end.

Definition is_dict (v : pyval) : bool :=
  match v with
  | PDict _ => true
  | _ => false
  end.

(** [response["usage"][...]] for the three counts, on a response dict. *)
Definition read_usage (response : pyval) : result (Z * Z * Z) :=
  (let? p := rbind (usage_count response "prompt_tokens") as_int in
   let? c := rbind (usage_count response "completion_tokens") as_int in
   let? t := rbind (usage_count response "total_tokens") as_int in
   inr (p, c, t))%result.

(** A vendor that answers every request with one fixed reply, and an
    encoder with one token per byte. *)
Definition example_externals (openai_new_api : bool) : OpenAIModel.externals :=
  OpenAIModel.mkExternals pyval example_value
    (fun _ => inr (fun s => inr (BPE.encode [] s)))
    openai_new_api
    (fun _ => inr (ErnieModel.result_format_as_openai (fun s => PStr s) "Hello!"))
    read_usage
    is_dict.

Definition example_config : gmap string pyval :=
  {[ "temperature" := PFloat 4596373779694328218; "max_tokens" := PInt 256 ]}.

Definition example_world : world := mkWorld {[ 1%positive := example_config ]} [].

Definition example_kwargs (messages : list Message) : gmap string pyval :=
  {[ "messages" := messages_list messages ]}.

(** Six hundred empty messages: 599 newlines and 9000 tokens of overhead. *)
Definition long_conversation : list Message := repeat (mkMessage "user" "") 600.

(** ** The module's globals, lines 24-50 *)

Module Globals.

Record t : Type := mk {
  openai_new_api : bool;
  OPENAI_API_KEY : string;
  BASE_URL : option string;
  ernie_token : string
}.

(** Executing the module's top level against [os.environ]:
    [os.environ['openai_new_api']] is indexed, the other three variables
    are tested with [in] first. *)
Definition import (environ : gmap string string) : result t :=
  (let? flag := map_getitem environ "openai_new_api" in
   let openai_new_api := String.eqb flag "1" in
   let OPENAI_API_KEY :=
     match environ !! "OPENAI_API_KEY" with
     | Some key => key
     | None => "NO_OPENAI_KEY"
     end in
   let BASE_URL := environ !! "BASE_URL" in
   let ernie_token :=
     match environ !! "ernie_token" with
     | Some token => token
     | None => "No_Ernie_Token"
     end in
   inr (mk openai_new_api OPENAI_API_KEY BASE_URL ernie_token))%result.

(** The arguments [openai.OpenAI] is constructed with. *)
Record client : Type := mkClient {
  api_key : string;
  base_url : option string
}.

(** Lines 88-96: [if BASE_URL:] is false for [None] and for the empty
    string. *)
Definition make_client (g : t) : client :=
  match BASE_URL g with
  | Some url =>
      if String.eqb url "" then mkClient (OPENAI_API_KEY g) None
      else mkClient (OPENAI_API_KEY g) (Some url)
  | None => mkClient (OPENAI_API_KEY g) None
  end.

End Globals.

(** ** ErnieModel on message dicts, and its run *)

Module ErnieRun.

(** ["ass" in role]: a substring test on a [str], a membership test on a
    list or on the keys of a dict, a [TypeError] on anything else. *)
Definition ass_in (role : pyval) : result bool :=
  match role with
  | PStr s => inr (str_in "ass" s)
  | PList l =>
      inr (existsb (fun v => match v with PStr s => String.eqb s "ass" | _ => false end) l)
  | PDict d => inr (existsb (fun kv => String.eqb (fst kv) "ass") d)
  | _ => inl (TypeError "argument is not iterable")
  end.

Definition turn (role : string) (content : pyval) : pyval :=
  PDict [("role", PStr role); ("content", content)].

Definition loop_state : Type := (bool * list pyval)%type.

(** One iteration of [for message in messages], on whatever [message] is. *)
Definition loop_body (st : loop_state) (message : pyval) : result loop_state :=
  let '(last_message_be_user_flag, ernie_messages) := st in
  (let? role := getitem message "role" in
   let? content := getitem message "content" in
   let? is_ass := ass_in role in
   if is_ass then
     inr (false, ernie_messages ++ [turn "assistant" content])
   else
     let ernie_messages :=
       if last_message_be_user_flag
       then ernie_messages ++ [turn "assistant" (PStr "Got it.")]
       else ernie_messages in
     inr (true, ernie_messages ++ [turn "user" content]))%result.

Fixpoint loop (st : loop_state) (items : list pyval) : result loop_state :=
  match items with
  | [] => inr st
  | message :: rest => (let? st' := loop_body st message in loop st' rest)%result
  end.

Definition messages_reformat_as_ernie (messages : pyval) : result (list pyval) :=
  (let? items := iter_items messages in
   let? st := loop (false, []) items in
   inr (snd st))%result.

(** erniebot's [ChatCompletion.create] and the response's [get_result]. *)
Record externals : Type := mkExternals {
  Response : Type;
  create : VendorRequest -> result Response;
  get_result : Response -> pyval
}.

Definition call_create (X : externals) (request : VendorRequest) : M (Response X) :=
  fun w => (create X request, mkWorld (dicts w) (vendor_calls w ++ [request])).

(** Lines 220-247.  The joined string of line 222 is computed and not
    used; the request has the two keywords [model] and [messages] and
    nothing of [args], of the other [kwargs] or of the configuration. *)
Definition run (X : externals) (self : ErnieModel.t) (args : list pyval)
    (kwargs : gmap string pyval) : M pyval :=
  (let! messages := lift (map_getitem kwargs "messages") in
   let! items := lift (iter_items messages) in
   let! contents := lift (comprehension (fun message => getitem message "content") items) in
   let! string := lift (join_lines contents) in
   let! ernie_messages := lift (messages_reformat_as_ernie messages) in
   let! response :=
     call_create X
       (mkRequest [] {[ "model" := PStr "ernie-3.5"; "messages" := PList ernie_messages ]}) in
   let response := ErnieModel.result_format_as_openai (get_result X) response in
   if is_dict response
   then ret response
   else raise (RuntimeError "Unexpected return from OpenAI API"))%M.

End ErnieRun.

(** ** Calling [run] on whatever the factory made *)

(** What [inst.run] returns: the vendor's object from an OpenAIModel, a
    dict from the other two. *)
Inductive backend_response (X : OpenAIModel.externals) : Type :=
  | FromVendor (response : OpenAIModel.Response X)
  | FromDict (response : pyval).

Arguments FromVendor {X} response.
Arguments FromDict {X} response.

Definition backend_run (X : OpenAIModel.externals) (E : ErnieRun.externals)
    (inst : ModelBackend) (args : list pyval) (kwargs : gmap string pyval)
    : M (backend_response X) :=
  match inst with
  | IsOpenAIModel self =>
      (let! response := OpenAIModel.run X self args kwargs in ret (FromVendor response))%M
  | IsErnieModel self =>
      (let! response := ErnieRun.run E self args kwargs in ret (FromDict response))%M
  | IsStubModel self => ret (FromDict (StubModel.run self args kwargs))
  end.

(** ** More vocabulary for the statements *)

(** Neighbouring pairs of messages neither of which has "ass" in its role. *)
Fixpoint adjacent_user_pairs (l : list Message) : nat :=
  match l with
  | [] => O
  | m1 :: tl =>
      match tl with
      | [] => O
      | m2 :: _ =>
          ((if negb (str_in "ass" (role m1)) && negb (str_in "ass" (role m2))
            then 1 else 0)
           + adjacent_user_pairs tl)%nat
      end
  end.

(** A role the converter emits. *)
Definition ernie_role (m : Message) : Prop := role m = "user" \/ role m = "assistant".

(** An erniebot that answers every request with the text "Hello!". *)
Definition example_ernie : ErnieRun.externals :=
  ErnieRun.mkExternals string (fun _ => inr "Hello!") (fun s => PStr s).

(** What [ErnieRun.run] computes before its vendor call: the join of line
    222, whose value is dropped, and the converted messages. *)
Definition ernie_prelude (kwargs : gmap string pyval) : result (list pyval) :=
  (let? messages := map_getitem kwargs "messages" in
   let? items := iter_items messages in
   let? contents := comprehension (fun message => getitem message "content") items in
   let? string := join_lines contents in
   ErnieRun.messages_reformat_as_ernie messages)%result.

(** The request [ErnieRun.run] makes for converted messages. *)
Definition ernie_request (ernie_messages : list pyval) : VendorRequest :=
  mkRequest [] {[ "model" := PStr "ernie-3.5"; "messages" := PList ernie_messages ]}.

(** The answer [ErnieRun.run] gives for what the vendor answered. *)
Definition ernie_answer (X : ErnieRun.externals) (r : result (ErnieRun.Response X))
    : result pyval :=
  rbind r (fun response =>
    inr (ErnieModel.result_format_as_openai (ErnieRun.get_result X) response)).

(** A vendor that refuses every request. *)
Definition failing_externals : OpenAIModel.externals :=
  OpenAIModel.mkExternals pyval example_value
    (fun _ => inr (fun s => inr (BPE.encode [] s)))
    false
    (fun _ => inl (VendorError "rate limit"))
    read_usage
    is_dict.

(** * Proofs *)

(** ** Strings *)

Lemma append_nil (s : string) : "" +:+ s = s.
Proof. reflexivity. Qed.

Lemma append_cons a (s t : string) : String a s +:+ t = String a (s +:+ t).
Proof. reflexivity. Qed.

Lemma prefix_app sub s :
  String.prefix sub s = true <-> exists post, s = sub +:+ post.
Proof.
  revert s. induction sub as [|a sub IH]; intros s.
  - split; [intros _; by exists s | by destruct s].
  - destruct s as [|b s]; cbn [String.prefix].
    + split; [done | intros [post H]; discriminate].
    + destruct (Ascii.ascii_dec a b) as [->|Hne].
      * rewrite IH. split; intros [post H]; exists post;
          rewrite append_cons in *; congruence.
      * split; [done | intros [post H]; rewrite append_cons in H; congruence].
Qed.

(** [str_in] is the substring test. *)
Lemma str_in_spec sub s :
  str_in sub s = true <-> exists pre post, s = pre +:+ sub +:+ post.
Proof.
  induction s as [|a s IH]; cbn [str_in].
  - rewrite orb_false_r, prefix_app. split.
    + intros [post H]. by exists "", post.
    + intros [pre [post H]]. destruct pre; [by exists post | discriminate].
  - rewrite orb_true_iff, prefix_app, IH. split.
    + intros [[post H] | [pre [post H]]].
      * by exists "", post.
      * exists (String a pre), post. rewrite append_cons. by rewrite H.
    + intros [pre [post H]]. destruct pre as [|b pre].
      * left. by exists post.
      * right. exists pre, post. rewrite append_cons in H. congruence.
Qed.

(** ** The converter's loop and the recursion agree *)

Lemma loop_body_emitted flag out m :
  ErnieModel.loop_body (flag, out) m
  = (negb (str_in "ass" (role m)), out ++ emitted flag m).
Proof.
  unfold ErnieModel.loop_body, emitted, turn_of, filler.
  destruct (str_in "ass" (role m)); simpl.
  - reflexivity.
  - destruct flag; simpl; [rewrite <- app_assoc|]; reflexivity.
Qed.

Lemma fold_loop_body messages : forall flag out,
  snd (fold_left ErnieModel.loop_body messages (flag, out))
  = out ++ reformat_from flag messages.
Proof.
  induction messages as [|m ms IH]; intros flag out; cbn [fold_left reformat_from].
  - by rewrite app_nil_r.
  - rewrite loop_body_emitted, IH. by rewrite <- app_assoc.
Qed.

Lemma reformat_as_recursion messages :
  ErnieModel.messages_reformat_as_ernie messages = reformat_from false messages.
Proof. unfold ErnieModel.messages_reformat_as_ernie. by rewrite fold_loop_body. Qed.

(** ** Alternation *)

Lemma consecutive_users_cons m l :
  consecutive_users (m :: l)
  = (is_user m && starts_with_user l) || consecutive_users l.
Proof. destruct l; simpl; [by rewrite andb_false_r | done]. Qed.

Lemma is_user_turn_of m : is_user (turn_of m) = negb (str_in "ass" (role m)).
Proof. unfold is_user, turn_of. by destruct (str_in "ass" (role m)). Qed.

Lemma is_assistant_turn_of m : is_assistant (turn_of m) = str_in "ass" (role m).
Proof. unfold is_assistant, turn_of. by destruct (str_in "ass" (role m)). Qed.

(** After a user turn the next thing emitted is not a user turn, and no two
    user turns ever meet. *)
Lemma reformat_from_alternates messages : forall flag,
  consecutive_users (reformat_from flag messages) = false
  /\ (flag = true -> starts_with_user (reformat_from flag messages) = false).
Proof.
  induction messages as [|m ms IH]; intros flag; [done|].
  cbn [reformat_from]. unfold emitted.
  pose proof (is_user_turn_of m) as Hu.
  destruct (str_in "ass" (role m)) eqn:Hass; cbn [negb andb app] in *.
  - destruct (IH false) as [IHc _].
    rewrite consecutive_users_cons, IHc, Hu. split; [done|].
    intros _. cbn [starts_with_user]. exact Hu.
  - destruct (IH true) as [IHc IHs].
    assert (Hturn : consecutive_users (turn_of m :: reformat_from true ms) = false).
    { rewrite consecutive_users_cons, IHc, IHs by done. by rewrite andb_false_r. }
    destruct flag; cbn [app].
    + split; [|done]. by rewrite consecutive_users_cons, Hturn.
    + split; [done | discriminate].
Qed.

Lemma reformat_from_chunks messages : forall flag,
  exists chunks,
    reformat_from flag messages = concat chunks
    /\ Forall2 contribution messages chunks.
Proof.
  induction messages as [|m ms IH]; intros flag.
  - exists []. split; [done | constructor].
  - destruct (IH (negb (str_in "ass" (role m)))) as [chunks [Heq Hall]].
    exists (emitted flag m :: chunks). cbn [reformat_from concat].
    split; [by rewrite Heq|]. constructor; [|done].
    unfold emitted. eexists. split; [reflexivity|].
    destruct (negb (str_in "ass" (role m)) && flag); auto.
Qed.

(** ** The converter: claims *)

(** C6. The converter turns [{user,"Hi"},{user,"How are you?"}] into
    [{user,"Hi"},{assistant,"Got it."},{user,"How are you?"}]: the filler
    assistant turn "Got it." is put between the two user messages. *)
Theorem reformat_two_users :
  ErnieModel.messages_reformat_as_ernie
    [mkMessage "user" "Hi"; mkMessage "user" "How are you?"]
  = [mkMessage "user" "Hi"; mkMessage "assistant" "Got it.";
     mkMessage "user" "How are you?"].
Proof. reflexivity. Qed.

(** C1, as stated, fails: a conversation that begins with an assistant
    message is converted to one that begins with an assistant turn. *)
Lemma reformat_keeps_leading_assistant :
  ErnieModel.messages_reformat_as_ernie [mkMessage "assistant" "Hello"]
  = [mkMessage "assistant" "Hello"]
  /\ ~ (consecutive_users
          (ErnieModel.messages_reformat_as_ernie [mkMessage "assistant" "Hello"]) = false
        /\ starts_with_assistant
             (ErnieModel.messages_reformat_as_ernie [mkMessage "assistant" "Hello"]) = false).
Proof. split; [reflexivity | intros [_ H]; discriminate H]. Qed.

(** C1, amended. For every input sequence the converter's output has no two
    consecutive user-role turns, and it starts with an assistant-role turn
    exactly when the first input message has a role containing "ass"; so
    it never does for an empty input or one that begins with a system or
    user message. *)
Theorem reformat_alternation (messages : list Message) :
  consecutive_users (ErnieModel.messages_reformat_as_ernie messages) = false
  /\ starts_with_assistant (ErnieModel.messages_reformat_as_ernie messages)
     = match messages with
       | [] => false
       | m :: _ => str_in "ass" (role m)
       end.
Proof.
  rewrite reformat_as_recursion. split.
  - apply reformat_from_alternates.
  - destruct messages as [|m ms]; [done|].
    cbn [reformat_from]. unfold emitted. rewrite andb_false_r.
    cbn [app starts_with_assistant]. apply is_assistant_turn_of.
Qed.

(** C9. A message is emitted as an assistant turn if and only if its role
    contains "ass" as a substring, with its content unchanged, and as a
    user turn otherwise: the output is, message by message, the turn
    [turn_of] gives, preceded by at most the filler; a "passenger" message
    comes out as an assistant turn and a "system" message as a user turn. *)
Theorem reformat_classifies_by_ass (messages : list Message) :
  (exists chunks,
      ErnieModel.messages_reformat_as_ernie messages = concat chunks
      /\ Forall2 contribution messages chunks)
  /\ (forall m,
        (is_assistant (turn_of m) = true <->
           exists pre post, role m = pre +:+ "ass" +:+ post)
        /\ is_user (turn_of m) = negb (is_assistant (turn_of m))
        /\ content (turn_of m) = content m)
  /\ (forall c,
        ErnieModel.messages_reformat_as_ernie [mkMessage "passenger" c]
        = [mkMessage "assistant" c])
  /\ (forall c,
        ErnieModel.messages_reformat_as_ernie [mkMessage "system" c]
        = [mkMessage "user" c]).
Proof.
  split; [|split; [|split]].
  - rewrite reformat_as_recursion. apply reformat_from_chunks.
  - intros m. rewrite is_assistant_turn_of, is_user_turn_of, <- str_in_spec.
    done.
  - reflexivity.
  - reflexivity.
Qed.

(** ** The token-window table *)

Lemma num_max_token_map_positive api identifier n :
  OpenAIModel.num_max_token_map api !! identifier = Some n -> 0 < n.
Proof.
  intros H. unfold OpenAIModel.num_max_token_map in H.
  destruct api; apply elem_of_list_to_map_2 in H;
    repeat (apply elem_of_cons in H as [H|H]; [inversion H; lia|]);
    by apply elem_of_nil in H.
Qed.

(** C3. For every identifier in the token-window table the lookup returns
    a positive integer, and for every identifier that is not in it the
    lookup fails with [KeyError], the code's UnknownModelError; this holds
    for the table of either API version. *)
Theorem lookup_registry (api : bool) (identifier : string) :
  (identifier ∈ dom (OpenAIModel.num_max_token_map api) ->
     exists n, OpenAIModel.lookup api identifier = inr n /\ 0 < n)
  /\ (identifier ∉ dom (OpenAIModel.num_max_token_map api) ->
        OpenAIModel.lookup api identifier = inl (KeyError identifier)).
Proof.
  unfold OpenAIModel.lookup, map_getitem. split.
  - intros [n Hn]%elem_of_dom. rewrite Hn. exists n.
    split; [done | by eapply num_max_token_map_positive].
  - intros Hn%not_elem_of_dom. by rewrite Hn.
Qed.

Lemma lookup_registry_witness :
  (exists n, OpenAIModel.lookup false "gpt-4" = inr n /\ 0 < n)
  /\ OpenAIModel.lookup false "gpt-4-1106-preview"
     = inl (KeyError "gpt-4-1106-preview").
Proof.
  split.
  - apply (lookup_registry false "gpt-4").
    apply elem_of_dom. exists 8192. vm_compute. reflexivity.
  - apply (lookup_registry false "gpt-4-1106-preview").
    apply not_elem_of_dom. vm_compute. reflexivity.
Defined.

(** ** The factory *)

(** C4. [create] maps each of the six GPT identifiers to an OpenAIModel,
    [Ernie] to an ErnieModel and [STUB] to a StubModel, each holding the
    identifier and the configuration it was given; it maps the unset
    sentinel [None] to the OpenAIModel of the default model
    [GPT_3_5_TURBO]; and for every other identifier it fails with
    [ValueError], the code's UnsupportedModelError. *)
Theorem create_dispatch (model_config_dict : loc) :
  (forall m,
      m ∈ [GPT_3_5_TURBO; GPT_3_5_TURBO_NEW; GPT_4; GPT_4_32k; GPT_4_TURBO; GPT_4_TURBO_V] ->
      ModelFactory.create (Some m) model_config_dict
      = inr (IsOpenAIModel (OpenAIModel.mk m model_config_dict)))
  /\ ModelFactory.create (Some Ernie) model_config_dict
     = inr (IsErnieModel (ErnieModel.mk Ernie model_config_dict))
  /\ ModelFactory.create (Some STUB) model_config_dict
     = inr (IsStubModel StubModel.mk)
  /\ ModelFactory.create None model_config_dict
     = inr (IsOpenAIModel (OpenAIModel.mk ModelFactory.default_model_type model_config_dict))
  /\ ModelFactory.default_model_type = GPT_3_5_TURBO
  /\ (forall m,
        m ∉ [GPT_3_5_TURBO; GPT_3_5_TURBO_NEW; GPT_4; GPT_4_32k; GPT_4_TURBO;
             GPT_4_TURBO_V; Ernie; STUB] ->
        ModelFactory.create (Some m) model_config_dict
        = inl (ValueError "Unknown model")).
Proof.
  repeat split; try reflexivity.
  - intros m Hm.
    repeat (apply elem_of_cons in Hm as [->|Hm]; [reflexivity|]).
    by apply elem_of_nil in Hm.
  - intros m Hm. destruct m; try reflexivity;
      exfalso; apply Hm; repeat constructor.
Qed.

Lemma create_dispatch_witness :
  ModelFactory.create (Some GPT_4_TURBO) 1%positive
  = inr (IsOpenAIModel (OpenAIModel.mk GPT_4_TURBO 1%positive))
  /\ ModelFactory.create (Some (OtherMember "text-davinci-003")) 1%positive
     = inl (ValueError "Unknown model").
Proof.
  destruct (create_dispatch 1%positive) as (Hgpt & _ & _ & _ & _ & Hother).
  split.
  - apply Hgpt. repeat constructor.
  - apply Hother. intros H.
    repeat (apply elem_of_cons in H as [H|H]; [discriminate H|]).
    by apply elem_of_nil in H.
Defined.

(** ** The responses built here *)

(** C7. For every Ernie response the normaliser builds a response with
    exactly one choice, whose message content is what [get_result]
    extracts, whose finish_reason is "stop"; its three usage counts are
    the fixed placeholder 1, whatever the provider reported. *)
Theorem result_format_shape {Response : Type} (get_result : Response -> pyval)
    (response : Response) :
  exists choice,
    choices_of (ErnieModel.result_format_as_openai get_result response) = inr [choice]
    /\ choice_content choice = inr (get_result response)
    /\ getitem choice "finish_reason" = inr (PStr "stop")
    /\ usage_count (ErnieModel.result_format_as_openai get_result response)
         "prompt_tokens" = inr (PInt 1)
    /\ usage_count (ErnieModel.result_format_as_openai get_result response)
         "completion_tokens" = inr (PInt 1)
    /\ usage_count (ErnieModel.result_format_as_openai get_result response)
         "total_tokens" = inr (PInt 1).
Proof. eexists. repeat split; reflexivity. Qed.

(** C8. Whatever its arguments, StubModel's [run] returns a response with
    exactly one choice, finish_reason "stop" and content "Lorem Ipsum". *)
Theorem stub_run_fixed (self : StubModel.t) (args : list pyval)
    (kwargs : gmap string pyval) :
  exists choice,
    choices_of (StubModel.run self args kwargs) = inr [choice]
    /\ getitem choice "finish_reason" = inr (PStr "stop")
    /\ choice_content choice = inr (PStr "Lorem Ipsum").
Proof. eexists. repeat split; reflexivity. Qed.

(** ** OpenAIModel.run, step by step *)

Lemma run_steps X self args kwargs w :
  OpenAIModel.run X self args kwargs w =
  match OpenAIModel.budget X self kwargs with
  | inl e => (inl e, w)
  | inr b =>
      match dicts w !! OpenAIModel.model_config_dict self with
      | None => (inl (TypeError "object does not support item assignment"), w)
      | Some config =>
          let w1 := after_assignment self config b w in
          match merge_keywords kwargs
                  (OpenAIModel.value X (OpenAIModel.model_type self))
                  (<["max_tokens" := PInt b]> config) with
          | inl e => (inl e, w1)
          | inr keywords =>
              let request := mkRequest args keywords in
              (rbind (OpenAIModel.create X request) (check_response X),
               after_call request w1)
          end
      end
  end.
Proof.
  unfold OpenAIModel.run, bind, lift.
  destruct (OpenAIModel.budget X self kwargs) as [e|b]; [done|].
  unfold dict_setitem.
  destruct (dicts w !! OpenAIModel.model_config_dict self) as [config|] eqn:Hc; [|done].
  unfold dict_read. cbn [dicts]. rewrite lookup_insert_eq.
  fold (after_assignment self config b w).
  destruct (merge_keywords _ _ _) as [e|keywords]; [done|].
  unfold OpenAIModel.call_create, check_response, rbind, ret, raise.
  fold (after_call (mkRequest args keywords) (after_assignment self config b w)).
  destruct (OpenAIModel.create X _) as [e|response]; [done|].
  destruct (OpenAIModel.usage X response); [done|].
  by destruct (OpenAIModel.isinstance_expected X response).
Qed.

(** A successful merge passes the configuration's own [max_tokens] on. *)
Lemma merge_keywords_config kwargs model config keywords k v :
  merge_keywords kwargs model config = inr keywords ->
  config !! k = Some v ->
  keywords !! k = Some v.
Proof.
  unfold merge_keywords. intros H Hk.
  destruct (kwargs !! "model"); [done|].
  case_bool_decide as Hdisj; [|done].
  injection H as <-.
  apply lookup_union_Some_raw. right. split; [|done].
  eapply map_disjoint_Some_r; eauto.
Qed.

Lemma budget_inv X self kwargs b :
  OpenAIModel.budget X self kwargs = inr b ->
  exists messages num_prompt_tokens num_max_token,
    kwargs !! "messages" = Some messages
    /\ OpenAIModel.num_prompt_tokens
         (OpenAIModel.encoding_for_model X (OpenAIModel.value X (OpenAIModel.model_type self)))
         messages = inr num_prompt_tokens
    /\ OpenAIModel.lookup (OpenAIModel.openai_new_api X)
         (OpenAIModel.value X (OpenAIModel.model_type self)) = inr num_max_token
    /\ b = num_max_token - num_prompt_tokens.
Proof.
  unfold OpenAIModel.budget, map_getitem at 1, rbind. intros H.
  destruct (kwargs !! "messages") as [messages|]; [|done].
  destruct (OpenAIModel.num_prompt_tokens _ messages) as [|n] eqn:Hn; [done|].
  destruct (OpenAIModel.lookup _ _) as [|mx] eqn:Hmx; [done|].
  injection H as <-. by exists messages, n, mx.
Qed.

Lemma app_singleton_neq {A : Type} (l : list A) (x : A) : l ≠ l ++ [x].
Proof.
  intros H. apply (f_equal length) in H. rewrite length_app in H. simpl in H. lia.
Qed.

(** [run] makes one vendor call or none. *)
Lemma run_calls_once X self args kwargs w :
  vendor_calls (snd (OpenAIModel.run X self args kwargs w)) = vendor_calls w
  \/ exists request,
       vendor_calls (snd (OpenAIModel.run X self args kwargs w))
       = vendor_calls w ++ [request].
Proof.
  rewrite run_steps.
  destruct (OpenAIModel.budget X self kwargs) as [e|b]; [by left|].
  destruct (dicts w !! OpenAIModel.model_config_dict self) as [config|]; [|by left].
  cbn zeta. destruct (merge_keywords _ _ _) as [e|keywords]; [by left|].
  right. by eexists.
Qed.

(** ** The completion budget: claims *)

(** C2. In every call of [run], the [max_tokens] passed to the vendor call
    is the model's maximal context, as the table gives it, minus the
    estimated prompt tokens, with no clamping; so when the estimate meets
    or exceeds the context window what is passed is zero or negative. *)
Theorem run_passes_budget (X : OpenAIModel.externals) (self : OpenAIModel.t)
    (args : list pyval) (kwargs : gmap string pyval) (w : world)
    (request : VendorRequest) :
  vendor_calls (snd (OpenAIModel.run X self args kwargs w)) = vendor_calls w ++ [request] ->
  exists messages num_prompt_tokens num_max_token,
    kwargs !! "messages" = Some messages
    /\ OpenAIModel.num_prompt_tokens
         (OpenAIModel.encoding_for_model X (OpenAIModel.value X (OpenAIModel.model_type self)))
         messages = inr num_prompt_tokens
    /\ OpenAIModel.lookup (OpenAIModel.openai_new_api X)
         (OpenAIModel.value X (OpenAIModel.model_type self)) = inr num_max_token
    /\ req_keywords request !! "max_tokens" = Some (PInt (num_max_token - num_prompt_tokens))
    /\ (num_max_token <= num_prompt_tokens -> num_max_token - num_prompt_tokens <= 0).
Proof.
  rewrite run_steps. intros Hcalls.
  destruct (OpenAIModel.budget X self kwargs) as [e|b] eqn:Hb;
    [by apply app_singleton_neq in Hcalls|].
  destruct (dicts w !! OpenAIModel.model_config_dict self) as [config|];
    [|by apply app_singleton_neq in Hcalls].
  cbn zeta in Hcalls.
  destruct (merge_keywords _ _ _) as [e|keywords] eqn:Hm;
    [by apply app_singleton_neq in Hcalls|].
  cbn in Hcalls. apply app_inv_head in Hcalls. injection Hcalls as <-.
  destruct (budget_inv _ _ _ _ Hb) as (messages & n & mx & Hmsg & Hn & Hmx & ->).
  exists messages, n, mx. repeat split; try done; [|lia].
  cbn [req_keywords]. eapply merge_keywords_config; [exact Hm|].
  apply lookup_insert_eq.
Qed.

Lemma run_passes_budget_witness :
  exists messages num_prompt_tokens num_max_token,
    example_kwargs long_conversation !! "messages" = Some messages
    /\ OpenAIModel.num_prompt_tokens
         (OpenAIModel.encoding_for_model (example_externals false) "gpt-4")
         messages = inr num_prompt_tokens
    /\ OpenAIModel.lookup false "gpt-4" = inr num_max_token
    /\ (<["model" := PStr "gpt-4"]> (example_kwargs long_conversation)
          ∪ <["max_tokens" := PInt (-1407)]> example_config)
       !! "max_tokens" = Some (PInt (num_max_token - num_prompt_tokens))
    /\ (num_max_token <= num_prompt_tokens -> num_max_token - num_prompt_tokens <= 0).
Proof.
  refine (run_passes_budget (example_externals false) (OpenAIModel.mk GPT_4 1%positive)
            [] (example_kwargs long_conversation) example_world
            (mkRequest []
               (<["model" := PStr "gpt-4"]> (example_kwargs long_conversation)
                  ∪ <["max_tokens" := PInt (-1407)]> example_config)) _).
  vm_compute. reflexivity.
Defined.

(** The budget of that call: 8192 - (599 + 15 * 600), passed on as it is. *)
Example run_negative_budget :
  map (fun request => req_keywords request !! "max_tokens")
      (vendor_calls
         (snd (OpenAIModel.run (example_externals false) (OpenAIModel.mk GPT_4 1%positive)
                 [] (example_kwargs long_conversation) example_world)))
  = [Some (PInt (-1407))].
Proof. vm_compute. reflexivity. Qed.

(** ** The stored configuration: claims *)

Lemma run_dicts X self args kwargs w b config :
  OpenAIModel.budget X self kwargs = inr b ->
  dicts w !! OpenAIModel.model_config_dict self = Some config ->
  dicts (snd (OpenAIModel.run X self args kwargs w))
  = <[OpenAIModel.model_config_dict self := <["max_tokens" := PInt b]> config]> (dicts w).
Proof.
  intros Hb Hc. rewrite run_steps, Hb, Hc. cbn zeta.
  by destruct (merge_keywords _ _ _).
Qed.

(** The vendor is called after the assignment, with what it stored. *)
Lemma run_call_carries_budget X self args kwargs w b config :
  OpenAIModel.budget X self kwargs = inr b ->
  dicts w !! OpenAIModel.model_config_dict self = Some config ->
  vendor_calls (snd (OpenAIModel.run X self args kwargs w)) = vendor_calls w
  \/ exists request,
       vendor_calls (snd (OpenAIModel.run X self args kwargs w))
       = vendor_calls w ++ [request]
       /\ req_keywords request !! "max_tokens" = Some (PInt b).
Proof.
  intros Hb Hc. rewrite run_steps, Hb, Hc. cbn zeta.
  destruct (merge_keywords _ _ _) as [e|keywords] eqn:Hm; [by left|].
  right. eexists. split; [reflexivity|]. cbn [req_keywords].
  eapply merge_keywords_config; [exact Hm|]. apply lookup_insert_eq.
Qed.

Lemma run_raises_early X self args kwargs w e :
  OpenAIModel.budget X self kwargs = inl e ->
  OpenAIModel.run X self args kwargs w = (inl e, w).
Proof. intros H. by rewrite run_steps, H. Qed.

(** C10, as stated, fails: a call whose model is not in the table raises
    [KeyError] at the lookup and leaves the stored [max_tokens] as it was. *)
Lemma run_unknown_model_keeps_config :
  OpenAIModel.run (example_externals false) (OpenAIModel.mk GPT_4_TURBO 1%positive)
    [] (example_kwargs [mkMessage "user" "Hello"]) example_world
  = (inl (KeyError "gpt-4-1106-preview"), example_world)
  /\ (dicts example_world !! 1%positive) ≫= (.!! "max_tokens") = Some (PInt 256).
Proof. split; vm_compute; reflexivity. Qed.

(** C10, amended. Every call of [run] that gets as far as computing the
    completion budget overwrites the [max_tokens] key of the stored
    configuration with it, before the vendor call and whatever becomes of
    that call, so that a value stored there before is discarded: the
    vendor call, when one is made, carries the budget as [max_tokens].
    The call leaves every other key of the configuration, and every other
    dict, as it was; a call that raises before that leaves everything as
    it was. *)
Theorem run_overwrites_max_tokens (X : OpenAIModel.externals) (self : OpenAIModel.t)
    (args : list pyval) (kwargs : gmap string pyval) (w : world) :
  (forall b config,
      OpenAIModel.budget X self kwargs = inr b ->
      dicts w !! OpenAIModel.model_config_dict self = Some config ->
      exists config',
        dicts (snd (OpenAIModel.run X self args kwargs w))
          !! OpenAIModel.model_config_dict self = Some config'
        /\ config' = <["max_tokens" := PInt b]> config
        /\ config' !! "max_tokens" = Some (PInt b)
        /\ (forall k, k ≠ "max_tokens" -> config' !! k = config !! k)
        /\ (forall l, l ≠ OpenAIModel.model_config_dict self ->
              dicts (snd (OpenAIModel.run X self args kwargs w)) !! l = dicts w !! l)
        /\ (vendor_calls (snd (OpenAIModel.run X self args kwargs w)) = vendor_calls w
            \/ exists request,
                 vendor_calls (snd (OpenAIModel.run X self args kwargs w))
                 = vendor_calls w ++ [request]
                 /\ req_keywords request !! "max_tokens" = Some (PInt b)))
  /\ (forall e,
        OpenAIModel.budget X self kwargs = inl e ->
        OpenAIModel.run X self args kwargs w = (inl e, w)).
Proof.
  split.
  - intros b config Hb Hc. exists (<["max_tokens" := PInt b]> config).
    rewrite (run_dicts _ _ _ _ _ _ _ Hb Hc).
    split; [apply lookup_insert_eq|]. split; [done|].
    split; [apply lookup_insert_eq|]. split; [|split].
    + intros k Hk. by apply lookup_insert_ne.
    + intros l Hl. by apply lookup_insert_ne.
    + by apply (run_call_carries_budget _ _ _ _ _ _ config).
  - apply run_raises_early.
Qed.

Lemma run_overwrites_max_tokens_witness :
  (exists config',
      dicts (snd (OpenAIModel.run (example_externals true) (OpenAIModel.mk GPT_4_TURBO 1%positive)
                    [] (example_kwargs [mkMessage "user" "Hello"]) example_world))
        !! 1%positive = Some config'
      /\ config' = <["max_tokens" := PInt 4076]> example_config
      /\ config' !! "max_tokens" = Some (PInt 4076)
      /\ (forall k, k ≠ "max_tokens" -> config' !! k = example_config !! k)
      /\ (forall l, l ≠ 1%positive ->
            dicts (snd (OpenAIModel.run (example_externals true)
                          (OpenAIModel.mk GPT_4_TURBO 1%positive)
                          [] (example_kwargs [mkMessage "user" "Hello"]) example_world)) !! l
            = dicts example_world !! l)
      /\ (vendor_calls
            (snd (OpenAIModel.run (example_externals true)
                    (OpenAIModel.mk GPT_4_TURBO 1%positive)
                    [] (example_kwargs [mkMessage "user" "Hello"]) example_world))
          = vendor_calls example_world
          \/ exists request,
               vendor_calls
                 (snd (OpenAIModel.run (example_externals true)
                         (OpenAIModel.mk GPT_4_TURBO 1%positive)
                         [] (example_kwargs [mkMessage "user" "Hello"]) example_world))
               = vendor_calls example_world ++ [request]
               /\ req_keywords request !! "max_tokens" = Some (PInt 4076)))
  /\ OpenAIModel.run (example_externals false) (OpenAIModel.mk GPT_4_TURBO 1%positive)
       [] (example_kwargs [mkMessage "user" "Hello"]) example_world
     = (inl (KeyError "gpt-4-1106-preview"), example_world).
Proof.
  split.
  - apply (run_overwrites_max_tokens (example_externals true)
             (OpenAIModel.mk GPT_4_TURBO 1%positive) []
             (example_kwargs [mkMessage "user" "Hello"]) example_world).
    + vm_compute. reflexivity.
    + vm_compute. reflexivity.
  - apply (run_overwrites_max_tokens (example_externals false)
             (OpenAIModel.mk GPT_4_TURBO 1%positive) []
             (example_kwargs [mkMessage "user" "Hello"]) example_world).
    vm_compute. reflexivity.
Defined.

(** ** The prompt-token estimate *)

Lemma append_assoc (s t u : string) : (s +:+ t) +:+ u = s +:+ t +:+ u.
Proof. induction s as [|a s IH]; [done|]. by rewrite !append_cons, IH. Qed.

Lemma append_nil_r (s : string) : s +:+ "" = s.
Proof. induction s as [|a s IH]; [done|]. by rewrite append_cons, IH. Qed.

Lemma length_append (s t : string) :
  String.length (s +:+ t) = (String.length s + String.length t)%nat.
Proof. induction s as [|a s IH]; [done|]. rewrite append_cons. simpl. by rewrite IH. Qed.

Lemma comprehension_contents (messages : list Message) :
  comprehension (fun message => getitem message "content") (map message_dict messages)
  = inr (map (fun m => PStr (content m)) messages).
Proof.
  induction messages as [|m ms IH]; [done|].
  cbn [map comprehension]. rewrite IH. reflexivity.
Qed.

Lemma comprehension_as_str (messages : list Message) :
  comprehension as_str (map (fun m => PStr (content m)) messages)
  = inr (map content messages).
Proof.
  induction messages as [|m ms IH]; [done|].
  cbn [map comprehension]. rewrite IH. reflexivity.
Qed.

(** When the encoding returns, the estimate is defined and is the count
    of the joined contents plus 15 a message; when it raises, so does
    the estimate. *)
Lemma estimate_eq encode messages :
  estimate encode messages
  = rbind (encode (joined messages)) (fun tokens =>
      inr (Z.of_nat (length tokens) + 15 * Z.of_nat (length messages))).
Proof.
  unfold estimate, OpenAIModel.num_prompt_tokens, messages_list, iter_items.
  cbn [rbind]. rewrite comprehension_contents. cbn [rbind].
  unfold join_lines. rewrite comprehension_as_str. cbn [rbind].
  fold (joined messages). destruct (encode (joined messages)); [done|].
  cbn [rbind]. by rewrite length_map.
Qed.

Lemma joined_cons m ms : joined (m :: ms) = content m +:+ trail ms.
Proof. destruct ms; [by rewrite append_nil_r | done]. Qed.

Lemma joined_split before m after :
  joined (before ++ m :: after) = lead before +:+ content m +:+ trail after.
Proof.
  induction before as [|b bs IH].
  - apply joined_cons.
  - cbn [app]. rewrite joined_cons.
    destruct bs as [|b' bs]; cbn [app trail lead].
    + rewrite joined_cons. change (joined [b]) with (content b).
      by rewrite append_assoc.
    + cbn [app] in IH. rewrite IH. cbn [lead].
      rewrite (joined_cons b (b' :: bs)). cbn [trail].
      by rewrite !append_assoc.
Qed.

Lemma joined_without before after :
  joined (before ++ after)
  = match after with
    | [] => joined before
    | _ => lead before +:+ joined after
    end.
Proof.
  destruct after as [|a after]; [by rewrite app_nil_r|].
  by rewrite joined_split, joined_cons.
Qed.

(** Adding a message inserts text into the joined contents. *)
Lemma joined_add_is_insertion before after m :
  exists a x b,
    joined (before ++ after) = a +:+ b
    /\ joined (add_message before after m) = a +:+ x +:+ b.
Proof.
  unfold add_message. rewrite joined_split, joined_without.
  destruct after as [|a' after].
  - cbn [trail]. destruct before as [|b' before]; cbn [lead].
    + by exists "", (content m), "".
    + exists (joined (b' :: before)), (newline +:+ content m), "".
      by rewrite append_nil_r, !append_assoc.
  - exists (lead before), (content m +:+ newline), (joined (a' :: after)).
    cbn [trail]. by rewrite !append_assoc.
Qed.

(** With an encoding that never saves more than 15 tokens on an
    insertion, adding a message anywhere never lowers the estimate. *)
Lemma estimate_add_saves_at_most encode before after m n0 n1 :
  saves_at_most 15 encode ->
  estimate encode (before ++ after) = inr n0 ->
  estimate encode (add_message before after m) = inr n1 ->
  n0 <= n1.
Proof.
  intros Hsave. rewrite !estimate_eq.
  destruct (joined_add_is_insertion before after m) as (a & x & b & -> & ->).
  destruct (encode (a +:+ b)) as [|t] eqn:Ht; [done|].
  destruct (encode (a +:+ x +:+ b)) as [|t'] eqn:Ht'; [done|].
  cbn [rbind]. intros [= <-] [= <-].
  pose proof (Hsave a x b t t' Ht Ht').
  unfold add_message. rewrite !length_app. cbn [length]. lia.
Qed.

(** ** The estimate: claims *)

(** C5, as stated, fails with the encoding the code uses: cl100k_base has
    three tokens for "today", newline, space and two when one more newline
    follows, so appending a newline to the content of the only message
    lowers the estimate from 18 to 17. *)
Lemma estimate_drops_on_append :
  exists n1 n2,
    estimate cl100k_encode [mkMessage "user" ("today" +:+ newline +:+ " ")] = inr n1
    /\ estimate cl100k_encode
         [append_content (mkMessage "user" ("today" +:+ newline +:+ " ")) newline]
       = inr n2
    /\ n1 = 18 /\ n2 = 17 /\ ~ (n1 <= n2).
Proof. exists 18, 17. repeat split; try (vm_compute; reflexivity). lia. Qed.

(** C5, amended. The estimate is the encoding's token count of the
    newline-joined contents plus 15 tokens a message, whenever the
    encoding returns.  So adding a message changes it by 15 and the
    change of the count, and never lowers it when the count drops by at
    most 15; appending content to a message changes it by exactly the
    change of the count, and never lowers it when the count does not
    drop. *)
Theorem estimate_monotone (encode : string -> result (list Z))
    (before after : list Message) (m : Message) (extra : string)
    (t0 t1 t2 : list Z) :
  encode (joined (before ++ after)) = inr t0 ->
  encode (joined (add_message before after m)) = inr t1 ->
  encode (joined (before ++ append_content m extra :: after)) = inr t2 ->
  exists n0 n1 n2,
    estimate encode (before ++ after) = inr n0
    /\ estimate encode (add_message before after m) = inr n1
    /\ estimate encode (before ++ append_content m extra :: after) = inr n2
    /\ n0 = Z.of_nat (length t0) + 15 * Z.of_nat (length (before ++ after))
    /\ n1 - n0 = 15 + (Z.of_nat (length t1) - Z.of_nat (length t0))
    /\ n2 - n1 = Z.of_nat (length t2) - Z.of_nat (length t1)
    /\ (Z.of_nat (length t0) <= Z.of_nat (length t1) + 15 -> n0 <= n1)
    /\ (Z.of_nat (length t1) <= Z.of_nat (length t2) -> n1 <= n2).
Proof.
  intros H0 H1 H2. rewrite !estimate_eq, H0, H1, H2. cbn [rbind].
  eexists _, _, _. do 3 (split; [reflexivity|]).
  unfold add_message. rewrite !length_app. cbn [length].
  repeat split; lia.
Qed.

Lemma estimate_monotone_witness :
  exists n0 n1 n2,
    estimate cl100k_encode ([] ++ []) = inr n0
    /\ estimate cl100k_encode
         (add_message [] [] (mkMessage "user" ("today" +:+ newline +:+ " "))) = inr n1
    /\ estimate cl100k_encode
         ([] ++ append_content (mkMessage "user" ("today" +:+ newline +:+ " ")) newline :: [])
       = inr n2
    /\ n0 = Z.of_nat (length (@nil Z)) + 15 * Z.of_nat (length (@nil Message ++ []))
    /\ n1 - n0 = 15 + (Z.of_nat (length [31213; 198; 220]) - Z.of_nat (length (@nil Z)))
    /\ n2 - n1 = Z.of_nat (length [31213; 27907]) - Z.of_nat (length [31213; 198; 220])
    /\ (Z.of_nat (length (@nil Z)) <= Z.of_nat (length [31213; 198; 220]) + 15 -> n0 <= n1)
    /\ (Z.of_nat (length [31213; 198; 220]) <= Z.of_nat (length [31213; 27907]) -> n1 <= n2).
Proof.
  refine (estimate_monotone cl100k_encode [] []
            (mkMessage "user" ("today" +:+ newline +:+ " ")) newline
            [] [31213; 198; 220] [31213; 27907] _ _ _);
    vm_compute; reflexivity.
Defined.

(** * Further properties *)

(** ** The converter: shape of the output *)

Lemma reformat_from_roles messages : forall flag,
  Forall ernie_role (reformat_from flag messages).
Proof.
  induction messages as [|m ms IH]; intros flag; [constructor|].
  cbn [reformat_from]. unfold emitted. apply Forall_app. split; [|apply IH].
  apply Forall_app. split.
  - destruct (negb (str_in "ass" (role m)) && flag); [|constructor].
    apply Forall_cons. split; [by right | constructor].
  - apply Forall_cons. split; [|constructor].
    unfold ernie_role, turn_of. cbn [role].
    destruct (str_in "ass" (role m)); auto.
Qed.

(** A conversation that already alternates is left as it is. *)
Lemma reformat_from_fixed messages : forall flag,
  Forall ernie_role messages ->
  consecutive_users messages = false ->
  (flag = true -> starts_with_user messages = false) ->
  reformat_from flag messages = messages.
Proof.
  induction messages as [|m ms IH]; intros flag Hroles Hcons Hflag; [done|].
  apply Forall_cons in Hroles as [Hm Hms].
  rewrite consecutive_users_cons in Hcons.
  apply orb_false_iff in Hcons as [Hhead Htail].
  cbn [reformat_from]. unfold emitted, turn_of.
  destruct m as [r c]. cbn [role content] in *.
  destruct Hm as [Hm|Hm]; cbn [role] in Hm; subst r.
  - change (str_in "ass" "user") with false. cbn [negb andb].
    destruct flag.
    + specialize (Hflag eq_refl). done.
    + cbn [app]. f_equal. apply IH; [done..|]. intros _.
      by destruct (starts_with_user ms).
  - change (str_in "ass" "assistant") with true. cbn [negb andb app].
    f_equal. apply IH; [done..|]. discriminate.
Qed.

Lemma adjacent_user_pairs_cons m l :
  adjacent_user_pairs (m :: l)
  = ((if negb (str_in "ass" (role m))
         && match l with
            | [] => false
            | m2 :: _ => negb (str_in "ass" (role m2))
            end
      then 1 else 0) + adjacent_user_pairs l)%nat.
Proof. destruct l; [|done]. cbn. by rewrite andb_false_r. Qed.

Lemma length_reformat_from messages : forall flag,
  length (reformat_from flag messages)
  = (length messages + adjacent_user_pairs messages
     + (if flag && match messages with
                   | [] => false
                   | m :: _ => negb (str_in "ass" (role m))
                   end
        then 1 else 0))%nat.
Proof.
  induction messages as [|m ms IH]; intros flag.
  - by rewrite andb_false_r.
  - cbn [reformat_from]. unfold emitted.
    rewrite !length_app, IH, adjacent_user_pairs_cons. cbn [length].
    destruct (str_in "ass" (role m)); cbn [negb andb];
      destruct flag; cbn [andb length]; lia.
Qed.

Lemma adjacent_user_pairs_bound l :
  (adjacent_user_pairs l <= length l - 1)%nat.
Proof.
  induction l as [|m l IH]; [done|].
  rewrite adjacent_user_pairs_cons.
  destruct l as [|m2 l]; [rewrite andb_false_r; cbn; lia|].
  cbn [length] in *.
  destruct (negb (str_in "ass" (role m)) && negb (str_in "ass" (role m2))); lia.
Qed.

Lemma filter_user_reformat_from messages : forall flag,
  List.filter is_user (reformat_from flag messages)
  = map turn_of (List.filter (fun m => negb (str_in "ass" (role m))) messages).
Proof.
  induction messages as [|m ms IH]; intros flag; [done|].
  cbn [reformat_from List.filter]. unfold emitted.
  rewrite !List.filter_app, IH.
  pose proof (is_user_turn_of m) as Hu.
  destruct (str_in "ass" (role m)); cbn [negb andb] in *.
  - cbn [List.filter app]. by rewrite Hu.
  - destruct flag; cbn [List.filter app]; rewrite Hu; reflexivity.
Qed.

Lemma sublist_reformat_from messages : forall flag,
  sublist (map turn_of messages) (reformat_from flag messages).
Proof.
  induction messages as [|m ms IH]; intros flag; [constructor|].
  cbn [reformat_from map]. unfold emitted.
  destruct (negb (str_in "ass" (role m)) && flag); cbn [app].
  - apply sublist_cons. by apply sublist_skip.
  - by apply sublist_skip.
Qed.

(** The flag after a run of messages. *)
Lemma reformat_from_app l1 l2 : forall flag,
  reformat_from flag (l1 ++ l2)
  = reformat_from flag l1
    ++ reformat_from (match last l1 with
                      | Some m => negb (str_in "ass" (role m))
                      | None => flag
                      end) l2.
Proof.
  induction l1 as [|m l1 IH]; intros flag; [done|].
  cbn [app reformat_from]. rewrite IH, <- app_assoc.
  destruct l1 as [|m' l1]; [done|]. rewrite last_cons_cons.
  destruct (last (m' :: l1)) eqn:Hlast; [done|]. by apply last_None in Hlast.
Qed.

(** X1. Converting a converted conversation changes nothing. *)
Theorem reformat_idempotent (messages : list Message) :
  ErnieModel.messages_reformat_as_ernie (ErnieModel.messages_reformat_as_ernie messages)
  = ErnieModel.messages_reformat_as_ernie messages.
Proof.
  rewrite (reformat_as_recursion messages), reformat_as_recursion.
  apply reformat_from_fixed.
  - apply reformat_from_roles.
  - apply reformat_from_alternates.
  - discriminate.
Qed.

(** X2. A conversation whose roles are "user" and "assistant" only and in
    which no two user messages are neighbours is converted to itself:
    nothing is inserted, dropped or renamed. *)
Theorem reformat_fixed_point (messages : list Message) :
  Forall ernie_role messages ->
  consecutive_users messages = false ->
  ErnieModel.messages_reformat_as_ernie messages = messages.
Proof.
  intros Hroles Hcons. rewrite reformat_as_recursion.
  apply reformat_from_fixed; [done | done | discriminate].
Qed.

Lemma reformat_fixed_point_witness :
  ErnieModel.messages_reformat_as_ernie
    [mkMessage "assistant" "Welcome."; mkMessage "user" "Hi";
     mkMessage "assistant" "Hello."; mkMessage "assistant" "How can I help?";
     mkMessage "user" "Bye"]
  = [mkMessage "assistant" "Welcome."; mkMessage "user" "Hi";
     mkMessage "assistant" "Hello."; mkMessage "assistant" "How can I help?";
     mkMessage "user" "Bye"].
Proof.
  apply reformat_fixed_point.
  - repeat (apply Forall_cons; split; [first [by left | by right]|]). constructor.
  - reflexivity.
Defined.

(** X3. The output has one turn for each message and one filler for each
    pair of neighbouring messages without "ass" in their roles; so it is
    at least as long as the input, it is empty for the empty conversation
    and, for n >= 1 messages, at most 2n-1 long. *)
Theorem reformat_length (messages : list Message) :
  length (ErnieModel.messages_reformat_as_ernie messages)
  = (length messages + adjacent_user_pairs messages)%nat
  /\ (length messages <= length (ErnieModel.messages_reformat_as_ernie messages))%nat
  /\ (messages = [] -> ErnieModel.messages_reformat_as_ernie messages = [])
  /\ (messages ≠ [] ->
        Z.of_nat (length (ErnieModel.messages_reformat_as_ernie messages))
        <= 2 * Z.of_nat (length messages) - 1).
Proof.
  rewrite reformat_as_recursion, length_reformat_from. cbn [andb].
  pose proof (adjacent_user_pairs_bound messages).
  split; [lia|]. split; [lia|]. split.
  - by intros ->.
  - intros Hne. destruct messages; [done|]. cbn [length] in *. lia.
Qed.

Lemma reformat_length_witness :
  ErnieModel.messages_reformat_as_ernie [] = []
  /\ Z.of_nat (length (ErnieModel.messages_reformat_as_ernie
                         [mkMessage "system" "Be brief."; mkMessage "user" "Hi";
                          mkMessage "user" "Bye"]))
     <= 2 * Z.of_nat (length [mkMessage "system" "Be brief."; mkMessage "user" "Hi";
                              mkMessage "user" "Bye"]) - 1.
Proof.
  split.
  - by apply (reformat_length []).
  - by apply (reformat_length [mkMessage "system" "Be brief."; mkMessage "user" "Hi";
                               mkMessage "user" "Bye"]).
Defined.

(** X4. The user turns of the output are, in order, exactly the input
    messages without "ass" in their roles, each with its content: no user
    content is lost, repeated, reordered or invented. *)
Theorem reformat_user_turns (messages : list Message) :
  List.filter is_user (ErnieModel.messages_reformat_as_ernie messages)
  = map (fun m => mkMessage "user" (content m))
        (List.filter (fun m => negb (str_in "ass" (role m))) messages).
Proof.
  rewrite reformat_as_recursion, filter_user_reformat_from.
  induction messages as [|m ms IH]; [done|].
  cbn [List.filter]. destruct (str_in "ass" (role m)) eqn:Hass; cbn [negb]; [done|].
  cbn [map]. rewrite IH. unfold turn_of. by rewrite Hass.
Qed.

(** X5. Every input message's turn is in the output, in the input's
    order: the output is the sequence of turns with fillers put in. *)
Theorem reformat_keeps_order (messages : list Message) :
  sublist (map turn_of messages) (ErnieModel.messages_reformat_as_ernie messages).
Proof. rewrite reformat_as_recursion. apply sublist_reformat_from. Qed.

(** X6. Whatever the roles of the input, every turn of the output has the
    role "user" or the role "assistant". *)
Theorem reformat_roles (messages : list Message) :
  Forall ernie_role (ErnieModel.messages_reformat_as_ernie messages).
Proof. rewrite reformat_as_recursion. apply reformat_from_roles. Qed.

(** X7. A message with "ass" in its role cuts the conversion in two: what
    stands before it and what stands after it are converted on their own. *)
Theorem reformat_splits_at_assistant (before after : list Message) (m : Message) :
  str_in "ass" (role m) = true ->
  ErnieModel.messages_reformat_as_ernie (before ++ m :: after)
  = ErnieModel.messages_reformat_as_ernie before
    ++ mkMessage "assistant" (content m)
    :: ErnieModel.messages_reformat_as_ernie after.
Proof.
  intros Hass. rewrite !reformat_as_recursion, reformat_from_app.
  f_equal. cbn [reformat_from]. unfold emitted, turn_of. rewrite Hass. reflexivity.
Qed.

Lemma reformat_splits_at_assistant_witness :
  ErnieModel.messages_reformat_as_ernie
    ([mkMessage "system" "Be brief."; mkMessage "user" "Hi"]
       ++ mkMessage "assistant" "Hello." :: [mkMessage "user" "Bye"; mkMessage "user" "Wait"])
  = ErnieModel.messages_reformat_as_ernie [mkMessage "system" "Be brief."; mkMessage "user" "Hi"]
    ++ mkMessage "assistant" "Hello."
    :: ErnieModel.messages_reformat_as_ernie [mkMessage "user" "Bye"; mkMessage "user" "Wait"].
Proof.
  exact (reformat_splits_at_assistant
           [mkMessage "system" "Be brief."; mkMessage "user" "Hi"]
           [mkMessage "user" "Bye"; mkMessage "user" "Wait"]
           (mkMessage "assistant" "Hello.") eq_refl).
Defined.

(** ** The converter on message dicts *)

Lemma getitem_role m : getitem (message_dict m) "role" = inr (PStr (role m)).
Proof. reflexivity. Qed.

Lemma getitem_content m : getitem (message_dict m) "content" = inr (PStr (content m)).
Proof. reflexivity. Qed.

Lemma ernie_loop_body_dict flag out m :
  ErnieRun.loop_body (flag, map message_dict out) (message_dict m)
  = inr (fst (ErnieModel.loop_body (flag, out) m),
         map message_dict (snd (ErnieModel.loop_body (flag, out) m))).
Proof.
  unfold ErnieRun.loop_body, ErnieModel.loop_body.
  rewrite getitem_role, getitem_content. cbn [rbind ErnieRun.ass_in].
  destruct (str_in "ass" (role m)); cbn [fst snd].
  - by rewrite map_app.
  - destruct flag; by rewrite !map_app.
Qed.

Lemma ernie_loop_app l1 l2 : forall st,
  ErnieRun.loop st (l1 ++ l2) = rbind (ErnieRun.loop st l1) (fun st' => ErnieRun.loop st' l2).
Proof.
  induction l1 as [|x l1 IH]; intros st; [done|].
  cbn [app ErnieRun.loop]. destruct (ErnieRun.loop_body st x); [done|]. apply IH.
Qed.

Lemma ernie_loop_dicts messages : forall flag out,
  ErnieRun.loop (flag, map message_dict out) (map message_dict messages)
  = inr (fst (fold_left ErnieModel.loop_body messages (flag, out)),
         map message_dict (snd (fold_left ErnieModel.loop_body messages (flag, out)))).
Proof.
  induction messages as [|m ms IH]; intros flag out; [done|].
  cbn [map ErnieRun.loop fold_left]. rewrite ernie_loop_body_dict. cbn [rbind].
  destruct (ErnieModel.loop_body (flag, out) m) as [flag' out']. apply IH.
Qed.

Lemma ernie_reformat_dicts (messages : list Message) :
  ErnieRun.messages_reformat_as_ernie (messages_list messages)
  = inr (map message_dict (ErnieModel.messages_reformat_as_ernie messages)).
Proof.
  unfold ErnieRun.messages_reformat_as_ernie, messages_list. cbn [iter_items rbind].
  change (@nil pyval) with (map message_dict []).
  rewrite ernie_loop_dicts. reflexivity.
Qed.

(** X8. On a list of message dicts with string roles and contents, the
    converter as the code runs it, on dicts, succeeds and returns the dicts
    of what the converter on messages returns. *)
Theorem ernie_reformat_refines (messages : list Message) :
  ErnieRun.messages_reformat_as_ernie (messages_list messages)
  = inr (map message_dict (ErnieModel.messages_reformat_as_ernie messages)).
Proof. apply ernie_reformat_dicts. Qed.

(** X9. The first message that cannot be read ends the conversion with
    its exception, whatever follows it: a message without "role", one
    with "role" but without "content", or one whose role cannot be
    searched for "ass". *)
Theorem ernie_reformat_first_fault (before : list Message) (bad : pyval)
    (rest : list pyval) (e : exn) :
  getitem bad "role" = inl e
  \/ (exists r, getitem bad "role" = inr r /\ getitem bad "content" = inl e)
  \/ (exists r c, getitem bad "role" = inr r /\ getitem bad "content" = inr c
                  /\ ErnieRun.ass_in r = inl e) ->
  ErnieRun.messages_reformat_as_ernie (PList (map message_dict before ++ bad :: rest))
  = inl e.
Proof.
  intros Hbad.
  unfold ErnieRun.messages_reformat_as_ernie. cbn [iter_items rbind].
  rewrite ernie_loop_app. change (@nil pyval) with (map message_dict []).
  rewrite ernie_loop_dicts. cbn [rbind ErnieRun.loop].
  destruct (fold_left ErnieModel.loop_body before (false, [])) as [flag out].
  cbn [fst snd]. unfold ErnieRun.loop_body.
  destruct Hbad as [H | [(r & Hr & H) | (r & c & Hr & Hc & H)]].
  - by rewrite H.
  - by rewrite Hr, H.
  - rewrite Hr, Hc. cbn [rbind]. by rewrite H.
Qed.

Lemma ernie_reformat_first_fault_witness :
  ErnieRun.messages_reformat_as_ernie
    (PList (map message_dict [mkMessage "user" "Hi"]
              ++ PDict [("content", PStr "no role")] :: [PInt 7]))
  = inl (KeyError "role").
Proof.
  apply (ernie_reformat_first_fault [mkMessage "user" "Hi"]
           (PDict [("content", PStr "no role")]) [PInt 7] (KeyError "role")).
  left. reflexivity.
Defined.

(** ** ErnieModel.run *)

Lemma ernie_run_steps X self args kwargs w :
  ErnieRun.run X self args kwargs w =
  match ernie_prelude kwargs with
  | inl e => (inl e, w)
  | inr ernie_messages =>
      (ernie_answer X (ErnieRun.create X (ernie_request ernie_messages)),
       after_call (ernie_request ernie_messages) w)
  end.
Proof.
  unfold ErnieRun.run, ernie_prelude, bind, lift.
  destruct (map_getitem kwargs "messages") as [e|messages]; [done|]. cbn [rbind].
  destruct (iter_items messages) as [e|items]; [done|]. cbn [rbind].
  destruct (comprehension _ items) as [e|contents]; [done|]. cbn [rbind].
  destruct (join_lines contents) as [e|string]; [done|]. cbn [rbind].
  destruct (ErnieRun.messages_reformat_as_ernie messages) as [e|ernie_messages]; [done|].
  unfold ErnieRun.call_create, ernie_answer, ernie_request, after_call.
  destruct (ErnieRun.create X _) as [e|response]; [done|].
  reflexivity.
Qed.

Lemma ernie_prelude_messages kwargs kwargs' :
  kwargs !! "messages" = kwargs' !! "messages" ->
  ernie_prelude kwargs = ernie_prelude kwargs'.
Proof. unfold ernie_prelude, map_getitem. by intros ->. Qed.

Lemma ernie_prelude_canonical kwargs messages :
  kwargs !! "messages" = Some (messages_list messages) ->
  ernie_prelude kwargs
  = inr (map message_dict (ErnieModel.messages_reformat_as_ernie messages)).
Proof.
  intros H. unfold ernie_prelude, map_getitem. rewrite H. cbn [rbind].
  unfold messages_list at 1. cbn [iter_items rbind].
  rewrite comprehension_contents. cbn [rbind].
  unfold join_lines. rewrite comprehension_as_str. cbn [rbind].
  apply ernie_reformat_dicts.
Qed.

Lemma comprehension_app {A B : Type} (f : A -> result B) (l1 l2 : list A) :
  comprehension f (l1 ++ l2)
  = rbind (comprehension f l1) (fun a =>
      rbind (comprehension f l2) (fun b => inr (a ++ b))).
Proof.
  induction l1 as [|x l1 IH]; cbn [app comprehension rbind].
  - by destruct (comprehension f l2).
  - destruct (f x); [done|]. cbn [rbind]. rewrite IH.
    destruct (comprehension f l1); [done|]. cbn [rbind].
    by destruct (comprehension f l2).
Qed.

(** X10. Called with a list of message dicts with string roles and
    contents, [ErnieModel.run] makes exactly one vendor call, for the model
    "ernie-3.5" and the converted messages; it returns the vendor's answer
    in OpenAI format, or raises what the vendor raised. *)
Theorem ernie_run_canonical (X : ErnieRun.externals) (self : ErnieModel.t)
    (args : list pyval) (kwargs : gmap string pyval) (w : world)
    (messages : list Message) :
  kwargs !! "messages" = Some (messages_list messages) ->
  exists request,
    request = mkRequest []
                {[ "model" := PStr "ernie-3.5";
                   "messages" := messages_list (ErnieModel.messages_reformat_as_ernie messages) ]}
    /\ vendor_calls (snd (ErnieRun.run X self args kwargs w)) = vendor_calls w ++ [request]
    /\ (forall response,
          ErnieRun.create X request = inr response ->
          fst (ErnieRun.run X self args kwargs w)
          = inr (ErnieModel.result_format_as_openai (ErnieRun.get_result X) response))
    /\ (forall e,
          ErnieRun.create X request = inl e ->
          fst (ErnieRun.run X self args kwargs w) = inl e).
Proof.
  intros H. eexists. split; [reflexivity|].
  rewrite ernie_run_steps, (ernie_prelude_canonical _ _ H).
  split; [reflexivity|].
  split; intros r Hr; cbn [fst]; unfold ernie_request, messages_list in *;
    by rewrite Hr.
Qed.

Lemma ernie_run_canonical_witness :
  exists request,
    request = mkRequest []
                {[ "model" := PStr "ernie-3.5";
                   "messages" := messages_list
                     (ErnieModel.messages_reformat_as_ernie
                        [mkMessage "system" "Be brief."; mkMessage "user" "Hi"]) ]}
    /\ vendor_calls
         (snd (ErnieRun.run example_ernie (ErnieModel.mk Ernie 1%positive) []
                 (example_kwargs [mkMessage "system" "Be brief."; mkMessage "user" "Hi"])
                 example_world))
       = vendor_calls example_world ++ [request]
    /\ (forall response,
          ErnieRun.create example_ernie request = inr response ->
          fst (ErnieRun.run example_ernie (ErnieModel.mk Ernie 1%positive) []
                 (example_kwargs [mkMessage "system" "Be brief."; mkMessage "user" "Hi"])
                 example_world)
          = inr (ErnieModel.result_format_as_openai (ErnieRun.get_result example_ernie) response))
    /\ (forall e,
          ErnieRun.create example_ernie request = inl e ->
          fst (ErnieRun.run example_ernie (ErnieModel.mk Ernie 1%positive) []
                 (example_kwargs [mkMessage "system" "Be brief."; mkMessage "user" "Hi"])
                 example_world) = inl e).
Proof.
  refine (ernie_run_canonical example_ernie (ErnieModel.mk Ernie 1%positive) []
            (example_kwargs [mkMessage "system" "Be brief."; mkMessage "user" "Hi"])
            example_world [mkMessage "system" "Be brief."; mkMessage "user" "Hi"] _).
  vm_compute. reflexivity.
Defined.

(** X11. [ErnieModel.run] looks at nothing but [kwargs["messages"]]: the
    positional arguments, every other keyword, the model type and the
    configuration of the instance make no difference to what it does. *)
Theorem ernie_run_ignores_options (X : ErnieRun.externals) (self self' : ErnieModel.t)
    (args args' : list pyval) (kwargs kwargs' : gmap string pyval) (w : world) :
  kwargs !! "messages" = kwargs' !! "messages" ->
  ErnieRun.run X self args kwargs w = ErnieRun.run X self' args' kwargs' w.
Proof.
  intros H. by rewrite !ernie_run_steps, (ernie_prelude_messages _ _ H).
Qed.

Lemma ernie_run_ignores_options_witness :
  ErnieRun.run example_ernie (ErnieModel.mk Ernie 1%positive) []
    (example_kwargs [mkMessage "user" "Hi"]) example_world
  = ErnieRun.run example_ernie (ErnieModel.mk GPT_4 2%positive) [PInt 3]
      (<["temperature" := PFloat 0]> (<["max_tokens" := PInt 10]>
         (example_kwargs [mkMessage "user" "Hi"]))) example_world.
Proof.
  apply ernie_run_ignores_options. vm_compute. reflexivity.
Defined.

(** X12. [ErnieModel.run] never writes to a configuration or any other
    dict, and it makes one vendor call or none; a call it makes has no
    positional arguments and the model "ernie-3.5". *)
Theorem ernie_run_frame (X : ErnieRun.externals) (self : ErnieModel.t)
    (args : list pyval) (kwargs : gmap string pyval) (w : world) :
  dicts (snd (ErnieRun.run X self args kwargs w)) = dicts w
  /\ (vendor_calls (snd (ErnieRun.run X self args kwargs w)) = vendor_calls w
      \/ exists request,
           vendor_calls (snd (ErnieRun.run X self args kwargs w))
           = vendor_calls w ++ [request]
           /\ req_args request = []
           /\ req_keywords request !! "model" = Some (PStr "ernie-3.5")
           /\ dom (req_keywords request) = {["model"; "messages"]}).
Proof.
  rewrite ernie_run_steps.
  destruct (ernie_prelude kwargs) as [e|ernie_messages]; [by split; [|left]|].
  split; [done|]. right. eexists. split; [reflexivity|].
  split; [done|]. split; [done|].
  cbn [ernie_request req_keywords]. rewrite dom_insert_L, dom_singleton_L.
  set_solver.
Qed.

(** X13. Whatever [ErnieModel.run] raises was raised by reading the
    messages, before any vendor call, or by the vendor: its own check of
    the response never fails. *)
Theorem ernie_run_errors (X : ErnieRun.externals) (self : ErnieModel.t)
    (args : list pyval) (kwargs : gmap string pyval) (w : world) (e : exn) :
  fst (ErnieRun.run X self args kwargs w) = inl e ->
  (ernie_prelude kwargs = inl e /\ snd (ErnieRun.run X self args kwargs w) = w)
  \/ (exists request,
        vendor_calls (snd (ErnieRun.run X self args kwargs w))
        = vendor_calls w ++ [request]
        /\ ErnieRun.create X request = inl e).
Proof.
  rewrite ernie_run_steps.
  destruct (ernie_prelude kwargs) as [e'|ernie_messages]; cbn [fst snd].
  - intros [= ->]. by left.
  - intros H. right. eexists. split; [reflexivity|].
    unfold ernie_answer, rbind in H.
    destruct (ErnieRun.create X (ernie_request ernie_messages)) as [e0|r]; [|done].
    by injection H as ->.
Qed.

Lemma ernie_run_errors_witness :
  (ernie_prelude ∅ = inl (KeyError "messages")
   /\ snd (ErnieRun.run example_ernie (ErnieModel.mk Ernie 1%positive) [] ∅ example_world)
      = example_world)
  \/ (exists request,
        vendor_calls
          (snd (ErnieRun.run example_ernie (ErnieModel.mk Ernie 1%positive) [] ∅ example_world))
        = vendor_calls example_world ++ [request]
        /\ ErnieRun.create example_ernie request = inl (KeyError "messages")).
Proof.
  apply (ernie_run_errors example_ernie (ErnieModel.mk Ernie 1%positive) [] ∅
           example_world (KeyError "messages")).
  vm_compute. reflexivity.
Defined.

(** X14. A message whose content is not a string makes [ErnieModel.run]
    raise the [TypeError] of the join of line 222, with no vendor call,
    although the joined string is not used for anything. *)
Theorem ernie_run_content_not_str (X : ErnieRun.externals) (self : ErnieModel.t)
    (args : list pyval) (kwargs : gmap string pyval) (w : world)
    (before after : list Message) (r : string) (c : pyval) (e : exn) :
  kwargs !! "messages"
  = Some (PList (map message_dict before ++ ErnieRun.turn r c :: map message_dict after)) ->
  as_str c = inl e ->
  ErnieRun.run X self args kwargs w = (inl e, w).
Proof.
  intros Hk Hc. rewrite ernie_run_steps.
  unfold ernie_prelude, map_getitem. rewrite Hk. cbn [rbind iter_items].
  rewrite comprehension_app. cbn [comprehension].
  rewrite !comprehension_contents. cbn [rbind].
  change (getitem (ErnieRun.turn r c) "content") with (@inr exn pyval c). cbn [rbind].
  unfold join_lines. rewrite comprehension_app, comprehension_as_str.
  cbn [rbind comprehension]. by rewrite Hc.
Qed.

Lemma ernie_run_content_not_str_witness :
  ErnieRun.run example_ernie (ErnieModel.mk Ernie 1%positive) []
    {[ "messages" := PList (map message_dict [mkMessage "user" "Hi"]
                              ++ ErnieRun.turn "assistant" PNone :: map message_dict []) ]}
    example_world
  = (inl (TypeError "sequence item: expected str instance"), example_world).
Proof.
  apply (ernie_run_content_not_str example_ernie (ErnieModel.mk Ernie 1%positive) []
           _ example_world [mkMessage "user" "Hi"] [] "assistant" PNone).
  - vm_compute. reflexivity.
  - reflexivity.
Defined.

(** ** OpenAIModel.run: the request, the outcome, the store *)

(** What is known of a call of [run] that reached the vendor. *)
Lemma run_request_inv X self args kwargs w request :
  vendor_calls (snd (OpenAIModel.run X self args kwargs w)) = vendor_calls w ++ [request] ->
  exists b config keywords,
    OpenAIModel.budget X self kwargs = inr b
    /\ dicts w !! OpenAIModel.model_config_dict self = Some config
    /\ merge_keywords kwargs (OpenAIModel.value X (OpenAIModel.model_type self))
         (<["max_tokens" := PInt b]> config) = inr keywords
    /\ request = mkRequest args keywords
    /\ OpenAIModel.run X self args kwargs w
       = (rbind (OpenAIModel.create X request) (check_response X),
          after_call request (after_assignment self config b w)).
Proof.
  rewrite run_steps. intros Hcalls.
  destruct (OpenAIModel.budget X self kwargs) as [e|b];
    [by apply app_singleton_neq in Hcalls|].
  destruct (dicts w !! OpenAIModel.model_config_dict self) as [config|];
    [|by apply app_singleton_neq in Hcalls].
  cbn zeta in *.
  destruct (merge_keywords _ _ _) as [e|keywords] eqn:Hm;
    [by apply app_singleton_neq in Hcalls|].
  cbn in Hcalls. apply app_inv_head in Hcalls. injection Hcalls as <-.
  by exists b, config, keywords.
Qed.

Lemma run_no_config X self args kwargs w b :
  OpenAIModel.budget X self kwargs = inr b ->
  dicts w !! OpenAIModel.model_config_dict self = None ->
  OpenAIModel.run X self args kwargs w
  = (inl (TypeError "object does not support item assignment"), w).
Proof. intros Hb Hc. by rewrite run_steps, Hb, Hc. Qed.

Lemma merge_keywords_lookup kwargs model config keywords k :
  merge_keywords kwargs model config = inr keywords ->
  keywords !! k
  = match (<["model" := PStr model]> kwargs) !! k with
    | Some v => Some v
    | None => config !! k
    end.
Proof.
  unfold merge_keywords. intros H.
  destruct (kwargs !! "model"); [done|].
  case_bool_decide; [|done]. injection H as <-.
  rewrite lookup_union.
  destruct (<["model" := PStr model]> kwargs !! k), (config !! k); done.
Qed.

Lemma merge_keywords_repeated kwargs model config k :
  is_Some (kwargs !! k) ->
  k = "model" \/ is_Some (config !! k) ->
  merge_keywords kwargs model config
  = inl (TypeError "got multiple values for keyword argument").
Proof.
  intros [v Hv] Hk. unfold merge_keywords.
  destruct (kwargs !! "model") eqn:Hmodel; [done|].
  destruct Hk as [->|[c Hc]]; [congruence|].
  case_bool_decide as Hdisj; [|done]. exfalso.
  rewrite map_disjoint_spec in Hdisj.
  apply (Hdisj k v c); [|done].
  rewrite lookup_insert_ne; [done|]. intros <-. congruence.
Qed.

Lemma num_max_token_map_bound api identifier n :
  OpenAIModel.num_max_token_map api !! identifier = Some n -> n <= 32768.
Proof.
  intros H. unfold OpenAIModel.num_max_token_map in H.
  destruct api; apply elem_of_list_to_map_2 in H;
    repeat (apply elem_of_cons in H as [H|H]; [inversion H; lia|]);
    by apply elem_of_nil in H.
Qed.

(** X15. The completion budget is at most the model's context window
    less 15 tokens a message, and so never more than 32768 - 15 n for n
    messages. *)
Theorem budget_upper_bound (X : OpenAIModel.externals) (self : OpenAIModel.t)
    (kwargs : gmap string pyval) (b : Z) :
  OpenAIModel.budget X self kwargs = inr b ->
  exists messages items num_max_token,
    kwargs !! "messages" = Some messages
    /\ iter_items messages = inr items
    /\ OpenAIModel.lookup (OpenAIModel.openai_new_api X)
         (OpenAIModel.value X (OpenAIModel.model_type self)) = inr num_max_token
    /\ b <= num_max_token - 15 * Z.of_nat (length items)
    /\ b <= 32768 - 15 * Z.of_nat (length items).
Proof.
  intros Hb.
  destruct (budget_inv _ _ _ _ Hb) as (messages & n & mx & Hmsg & Hn & Hmx & ->).
  unfold OpenAIModel.num_prompt_tokens in Hn.
  destruct (iter_items messages) as [|items] eqn:Hitems; [done|]. cbn [rbind] in Hn.
  destruct (comprehension _ items) as [|contents]; [done|]. cbn [rbind] in Hn.
  destruct (join_lines contents) as [|string]; [done|]. cbn [rbind] in Hn.
  destruct (OpenAIModel.encoding_for_model X _) as [|encoding]; [done|]. cbn [rbind] in Hn.
  destruct (encoding string) as [|tokens]; [done|]. cbn [rbind] in Hn.
  injection Hn as <-.
  assert (mx <= 32768).
  { unfold OpenAIModel.lookup, map_getitem in Hmx.
    destruct (OpenAIModel.num_max_token_map _ !! _) eqn:Ht; [|done].
    injection Hmx as <-. by eapply num_max_token_map_bound. }
  exists messages, items, mx. repeat split; try done; lia.
Qed.

Lemma budget_upper_bound_witness :
  exists messages items num_max_token,
    example_kwargs long_conversation !! "messages" = Some messages
    /\ iter_items messages = inr items
    /\ OpenAIModel.lookup false "gpt-4" = inr num_max_token
    /\ -1407 <= num_max_token - 15 * Z.of_nat (length items)
    /\ -1407 <= 32768 - 15 * Z.of_nat (length items).
Proof.
  refine (budget_upper_bound (example_externals false) (OpenAIModel.mk GPT_4 1%positive)
            (example_kwargs long_conversation) (-1407) _).
  vm_compute. reflexivity.
Defined.

(** X16. A keyword given to [run] that is also a key of the stored
    configuration, or is "model" or "max_tokens", makes the call fail with
    [TypeError] before the vendor is called; the stored [max_tokens] has
    been overwritten all the same. *)
Theorem run_rejects_repeated_keyword (X : OpenAIModel.externals) (self : OpenAIModel.t)
    (args : list pyval) (kwargs : gmap string pyval) (w : world)
    (k : string) (b : Z) (config : gmap string pyval) :
  is_Some (kwargs !! k) ->
  k = "model" \/ k = "max_tokens" \/ is_Some (config !! k) ->
  OpenAIModel.budget X self kwargs = inr b ->
  dicts w !! OpenAIModel.model_config_dict self = Some config ->
  fst (OpenAIModel.run X self args kwargs w)
  = inl (TypeError "got multiple values for keyword argument")
  /\ vendor_calls (snd (OpenAIModel.run X self args kwargs w)) = vendor_calls w
  /\ dicts (snd (OpenAIModel.run X self args kwargs w))
     = <[OpenAIModel.model_config_dict self := <["max_tokens" := PInt b]> config]> (dicts w).
Proof.
  intros Hk Hwhich Hb Hc. rewrite run_steps, Hb, Hc. cbn zeta.
  rewrite (merge_keywords_repeated _ _ _ k Hk); [done|].
  destruct Hwhich as [->|[->|[c Hcfg]]]; [by left | right | right].
  - rewrite lookup_insert_eq. by eexists.
  - destruct (decide (k = "max_tokens")) as [->|Hne].
    + rewrite lookup_insert_eq. by eexists.
    + rewrite lookup_insert_ne by done. by eexists.
Qed.

Lemma run_rejects_repeated_keyword_witness :
  fst (OpenAIModel.run (example_externals false) (OpenAIModel.mk GPT_4 1%positive) []
         (<["max_tokens" := PInt 100]> (example_kwargs [mkMessage "user" "Hello"]))
         example_world)
  = inl (TypeError "got multiple values for keyword argument")
  /\ vendor_calls
       (snd (OpenAIModel.run (example_externals false) (OpenAIModel.mk GPT_4 1%positive) []
               (<["max_tokens" := PInt 100]> (example_kwargs [mkMessage "user" "Hello"]))
               example_world))
     = vendor_calls example_world
  /\ dicts
       (snd (OpenAIModel.run (example_externals false) (OpenAIModel.mk GPT_4 1%positive) []
               (<["max_tokens" := PInt 100]> (example_kwargs [mkMessage "user" "Hello"]))
               example_world))
     = <[1%positive := <["max_tokens" := PInt 8172]> example_config]> (dicts example_world).
Proof.
  refine (run_rejects_repeated_keyword (example_externals false)
            (OpenAIModel.mk GPT_4 1%positive) []
            (<["max_tokens" := PInt 100]> (example_kwargs [mkMessage "user" "Hello"]))
            example_world "max_tokens" 8172 example_config _ _ _ _).
  - exists (PInt 100). vm_compute. reflexivity.
  - right. left. reflexivity.
  - vm_compute. reflexivity.
  - vm_compute. reflexivity.
Defined.

(** X17. Calling [run] twice with the same arguments leaves the dicts as
    one call leaves them: the second call overwrites [max_tokens] with the
    same budget. *)
Theorem run_twice_store (X : OpenAIModel.externals) (self : OpenAIModel.t)
    (args : list pyval) (kwargs : gmap string pyval) (w : world) :
  dicts (snd (OpenAIModel.run X self args kwargs
                (snd (OpenAIModel.run X self args kwargs w))))
  = dicts (snd (OpenAIModel.run X self args kwargs w)).
Proof.
  destruct (OpenAIModel.budget X self kwargs) as [e|b] eqn:Hb.
  - by rewrite !(run_raises_early _ _ _ _ _ _ Hb).
  - destruct (dicts w !! OpenAIModel.model_config_dict self) as [config|] eqn:Hc.
    + rewrite (run_dicts _ _ _ _ _ _ (<["max_tokens" := PInt b]> config) Hb).
      * rewrite (run_dicts _ _ _ _ _ _ _ Hb Hc).
        by rewrite insert_insert_eq, insert_insert_eq.
      * rewrite (run_dicts _ _ _ _ _ _ _ Hb Hc). apply lookup_insert_eq.
    + by rewrite !(run_no_config _ _ _ _ _ _ Hb Hc).
Qed.

(** X18. When [run] returns a response, it made exactly one vendor call,
    with the positional arguments it was given, the response is what the
    vendor returned to it, its usage counts could be read and it passed
    the type check. *)
Theorem run_success (X : OpenAIModel.externals) (self : OpenAIModel.t)
    (args : list pyval) (kwargs : gmap string pyval) (w : world)
    (response : OpenAIModel.Response X) :
  fst (OpenAIModel.run X self args kwargs w) = inr response ->
  exists request,
    vendor_calls (snd (OpenAIModel.run X self args kwargs w)) = vendor_calls w ++ [request]
    /\ req_args request = args
    /\ OpenAIModel.create X request = inr response
    /\ (exists counts, OpenAIModel.usage X response = inr counts)
    /\ OpenAIModel.isinstance_expected X response = true.
Proof.
  rewrite run_steps.
  destruct (OpenAIModel.budget X self kwargs) as [e|b]; [done|].
  destruct (dicts w !! OpenAIModel.model_config_dict self) as [config|]; [|done].
  cbn zeta. destruct (merge_keywords _ _ _) as [e|keywords]; [done|].
  cbn [fst snd]. intros H. exists (mkRequest args keywords).
  split; [done|]. split; [done|].
  unfold rbind, check_response in H.
  destruct (OpenAIModel.create X _) as [e|r]; [done|].
  destruct (OpenAIModel.usage X r) as [e|counts] eqn:Hu; [done|].
  destruct (OpenAIModel.isinstance_expected X r) eqn:Hi; [|done].
  injection H as <-. split; [done|]. split; [by exists counts | done].
Qed.

Lemma run_success_witness :
  exists request,
    vendor_calls
      (snd (OpenAIModel.run (example_externals true) (OpenAIModel.mk GPT_4 1%positive)
              [PInt 1] (example_kwargs [mkMessage "user" "Hello"]) example_world))
    = vendor_calls example_world ++ [request]
    /\ req_args request = [PInt 1]
    /\ OpenAIModel.create (example_externals true) request
       = inr (ErnieModel.result_format_as_openai (fun s => PStr s) "Hello!")
    /\ (exists counts,
          OpenAIModel.usage (example_externals true)
            (ErnieModel.result_format_as_openai (fun s => PStr s) "Hello!") = inr counts)
    /\ OpenAIModel.isinstance_expected (example_externals true)
         (ErnieModel.result_format_as_openai (fun s => PStr s) "Hello!") = true.
Proof.
  refine (run_success (example_externals true) (OpenAIModel.mk GPT_4 1%positive)
            [PInt 1] (example_kwargs [mkMessage "user" "Hello"]) example_world
            (ErnieModel.result_format_as_openai (fun s => PStr s) "Hello!") _).
  vm_compute. reflexivity.
Defined.

(** X19. The request [run] makes carries every keyword it was given
    unchanged, the model's identifier under "model", and every key of the
    stored configuration other than "max_tokens" unchanged; it has no
    keyword from anywhere else. *)
Theorem run_request_keywords (X : OpenAIModel.externals) (self : OpenAIModel.t)
    (args : list pyval) (kwargs : gmap string pyval) (w : world)
    (request : VendorRequest) :
  vendor_calls (snd (OpenAIModel.run X self args kwargs w)) = vendor_calls w ++ [request] ->
  exists config,
    dicts w !! OpenAIModel.model_config_dict self = Some config
    /\ (forall k v, kwargs !! k = Some v -> req_keywords request !! k = Some v)
    /\ req_keywords request !! "model"
       = Some (PStr (OpenAIModel.value X (OpenAIModel.model_type self)))
    /\ (forall k v, k ≠ "max_tokens" -> config !! k = Some v ->
          req_keywords request !! k = Some v)
    /\ (forall k, is_Some (req_keywords request !! k) ->
          is_Some (kwargs !! k) \/ k = "model" \/ k = "max_tokens" \/ is_Some (config !! k)).
Proof.
  intros Hcalls.
  destruct (run_request_inv _ _ _ _ _ _ Hcalls)
    as (b & config & keywords & _ & Hc & Hm & -> & _).
  exists config. split; [done|]. cbn [req_keywords].
  pose proof (merge_keywords_lookup _ _ _ _ "model" Hm) as Hmodel.
  rewrite lookup_insert_eq in Hmodel.
  assert (Hfresh : kwargs !! "model" = None).
  { unfold merge_keywords in Hm. by destruct (kwargs !! "model"). }
  split; [|split; [done|split]].
  - intros k v Hk. rewrite (merge_keywords_lookup _ _ _ _ k Hm).
    rewrite lookup_insert_ne by (intros <-; congruence). by rewrite Hk.
  - intros k v Hne Hk. eapply merge_keywords_config; [exact Hm|].
    by rewrite lookup_insert_ne.
  - intros k. rewrite (merge_keywords_lookup _ _ _ _ k Hm).
    destruct (decide (k = "model")) as [->|Hk]; [auto|].
    rewrite lookup_insert_ne by done.
    destruct (kwargs !! k); [left; by eexists|].
    destruct (decide (k = "max_tokens")) as [->|Hk']; [auto|].
    rewrite lookup_insert_ne by done. auto.
Qed.

Lemma run_request_keywords_witness :
  exists config,
    dicts example_world !! 1%positive = Some config
    /\ (forall k v,
          example_kwargs [mkMessage "user" "Hello"] !! k = Some v ->
          (<["model" := PStr "gpt-4"]> (example_kwargs [mkMessage "user" "Hello"])
             ∪ <["max_tokens" := PInt 8172]> example_config) !! k = Some v)
    /\ (<["model" := PStr "gpt-4"]> (example_kwargs [mkMessage "user" "Hello"])
          ∪ <["max_tokens" := PInt 8172]> example_config) !! "model"
       = Some (PStr "gpt-4")
    /\ (forall k v, k ≠ "max_tokens" -> config !! k = Some v ->
          (<["model" := PStr "gpt-4"]> (example_kwargs [mkMessage "user" "Hello"])
             ∪ <["max_tokens" := PInt 8172]> example_config) !! k = Some v)
    /\ (forall k,
          is_Some ((<["model" := PStr "gpt-4"]> (example_kwargs [mkMessage "user" "Hello"])
                      ∪ <["max_tokens" := PInt 8172]> example_config) !! k) ->
          is_Some (example_kwargs [mkMessage "user" "Hello"] !! k)
          \/ k = "model" \/ k = "max_tokens" \/ is_Some (config !! k)).
Proof.
  refine (run_request_keywords (example_externals false) (OpenAIModel.mk GPT_4 1%positive)
            [] (example_kwargs [mkMessage "user" "Hello"]) example_world
            (mkRequest []
               (<["model" := PStr "gpt-4"]> (example_kwargs [mkMessage "user" "Hello"])
                  ∪ <["max_tokens" := PInt 8172]> example_config)) _).
  vm_compute. reflexivity.
Defined.

(** X20. Once the vendor has been called, what it raises is raised by
    [run] unchanged; a response whose usage counts cannot be read raises
    that error; a response whose counts can be read but which fails the
    type check raises [RuntimeError].  In each case [max_tokens] has been
    overwritten. *)
Theorem run_vendor_failure (X : OpenAIModel.externals) (self : OpenAIModel.t)
    (args : list pyval) (kwargs : gmap string pyval) (w : world)
    (request : VendorRequest) :
  vendor_calls (snd (OpenAIModel.run X self args kwargs w)) = vendor_calls w ++ [request] ->
  (forall e, OpenAIModel.create X request = inl e ->
     fst (OpenAIModel.run X self args kwargs w) = inl e)
  /\ (forall response e,
        OpenAIModel.create X request = inr response ->
        OpenAIModel.usage X response = inl e ->
        fst (OpenAIModel.run X self args kwargs w) = inl e)
  /\ (forall response counts,
        OpenAIModel.create X request = inr response ->
        OpenAIModel.usage X response = inr counts ->
        OpenAIModel.isinstance_expected X response = false ->
        fst (OpenAIModel.run X self args kwargs w)
        = inl (RuntimeError "Unexpected return from OpenAI API"))
  /\ (exists b config,
        OpenAIModel.budget X self kwargs = inr b
        /\ dicts w !! OpenAIModel.model_config_dict self = Some config
        /\ dicts (snd (OpenAIModel.run X self args kwargs w))
           = <[OpenAIModel.model_config_dict self := <["max_tokens" := PInt b]> config]>
               (dicts w)).
Proof.
  intros Hcalls.
  destruct (run_request_inv _ _ _ _ _ _ Hcalls)
    as (b & config & keywords & Hb & Hc & Hm & -> & Hrun).
  rewrite Hrun. cbn [fst snd]. unfold check_response.
  split; [|split; [|split]].
  - by intros e ->.
  - intros response e -> Hu. cbn [rbind]. by rewrite Hu.
  - intros response counts -> Hu Hi. cbn [rbind]. by rewrite Hu, Hi.
  - by exists b, config.
Qed.

Lemma run_vendor_failure_witness :
  fst (OpenAIModel.run failing_externals (OpenAIModel.mk GPT_4 1%positive) []
         (example_kwargs [mkMessage "user" "Hello"]) example_world)
  = inl (VendorError "rate limit").
Proof.
  destruct (run_vendor_failure failing_externals (OpenAIModel.mk GPT_4 1%positive) []
              (example_kwargs [mkMessage "user" "Hello"]) example_world
              (mkRequest []
                 (<["model" := PStr "gpt-4"]> (example_kwargs [mkMessage "user" "Hello"])
                    ∪ <["max_tokens" := PInt 8172]> example_config)))
    as (Hraise & _).
  - vm_compute. reflexivity.
  - apply Hraise. reflexivity.
Defined.

(** ** The factory and what it makes *)

Lemma create_openai_config model_type model_config_dict self :
  ModelFactory.create model_type model_config_dict = inr (IsOpenAIModel self) ->
  OpenAIModel.model_config_dict self = model_config_dict.
Proof.
  intros H. destruct model_type as [m|]; [destruct m|];
    cbv in H; try discriminate H; by injection H as <-.
Qed.

(** X21. Two OpenAIModel backends that the factory made from the same
    configuration dict share it: after a call of [run] on one of them the
    other one's configuration has the budget of that call as [max_tokens]. *)
Theorem factory_shares_config (X : OpenAIModel.externals)
    (model_type model_type' : option ModelType) (model_config_dict : loc)
    (self self' : OpenAIModel.t) (args : list pyval) (kwargs : gmap string pyval)
    (w : world) (b : Z) (config : gmap string pyval) :
  ModelFactory.create model_type model_config_dict = inr (IsOpenAIModel self) ->
  ModelFactory.create model_type' model_config_dict = inr (IsOpenAIModel self') ->
  OpenAIModel.budget X self kwargs = inr b ->
  dicts w !! model_config_dict = Some config ->
  dicts (snd (OpenAIModel.run X self args kwargs w)) !! OpenAIModel.model_config_dict self'
  = Some (<["max_tokens" := PInt b]> config).
Proof.
  intros Hself Hself' Hb Hc.
  apply create_openai_config in Hself, Hself'.
  rewrite <- Hself in Hc. rewrite (run_dicts _ _ _ _ _ _ _ Hb Hc).
  rewrite Hself', Hself. apply lookup_insert_eq.
Qed.

Lemma factory_shares_config_witness :
  dicts (snd (OpenAIModel.run (example_externals true) (OpenAIModel.mk GPT_4 1%positive) []
                (example_kwargs [mkMessage "user" "Hello"]) example_world))
    !! OpenAIModel.model_config_dict (OpenAIModel.mk GPT_3_5_TURBO 1%positive)
  = Some (<["max_tokens" := PInt 8172]> example_config).
Proof.
  refine (factory_shares_config (example_externals true) (Some GPT_4) None 1%positive
            (OpenAIModel.mk GPT_4 1%positive) (OpenAIModel.mk GPT_3_5_TURBO 1%positive)
            [] (example_kwargs [mkMessage "user" "Hello"]) example_world 8172
            example_config _ _ _ _); vm_compute; reflexivity.
Defined.

(** X22. The backends the factory makes for [Ernie] and [STUB] never
    write to a dict when they are run; the one for [STUB] also calls no
    vendor and cannot fail. *)
Theorem factory_ernie_stub_frame (X : OpenAIModel.externals) (E : ErnieRun.externals)
    (model_type : option ModelType) (model_config_dict : loc) (inst : ModelBackend)
    (args : list pyval) (kwargs : gmap string pyval) (w : world) :
  ModelFactory.create model_type model_config_dict = inr inst ->
  (model_type = Some Ernie ->
     dicts (snd (backend_run X E inst args kwargs w)) = dicts w)
  /\ (model_type = Some STUB ->
        exists response,
          backend_run X E inst args kwargs w = (inr (FromDict response), w)
          /\ choices_of response
             = inr [PDict [("finish_reason", PStr "stop");
                           ("message", PDict [("content", PStr "Lorem Ipsum");
                                              ("role", PStr "assistant")])]]).
Proof.
  intros Hcreate. split; intros ->; cbv in Hcreate; injection Hcreate as <-.
  - unfold backend_run, bind. rewrite ernie_run_steps.
    destruct (ernie_prelude kwargs) as [e|ernie_messages]; [done|].
    by destruct (ernie_answer E _).
  - eexists. split; reflexivity.
Qed.

Lemma factory_ernie_stub_frame_witness :
  dicts (snd (backend_run (example_externals true) example_ernie
                (IsErnieModel (ErnieModel.mk Ernie 1%positive)) []
                (example_kwargs [mkMessage "user" "Hi"]) example_world))
  = dicts example_world
  /\ exists response,
       backend_run (example_externals true) example_ernie (IsStubModel StubModel.mk)
         [] ∅ example_world = (inr (FromDict response), example_world)
       /\ choices_of response
          = inr [PDict [("finish_reason", PStr "stop");
                        ("message", PDict [("content", PStr "Lorem Ipsum");
                                           ("role", PStr "assistant")])]].
Proof.
  split.
  - apply (factory_ernie_stub_frame (example_externals true) example_ernie (Some Ernie)
             1%positive (IsErnieModel (ErnieModel.mk Ernie 1%positive)) []
             (example_kwargs [mkMessage "user" "Hi"]) example_world);
      reflexivity.
  - apply (factory_ernie_stub_frame (example_externals true) example_ernie (Some STUB)
             1%positive (IsStubModel StubModel.mk) [] ∅ example_world);
      reflexivity.
Defined.

(** ** The two token-window tables *)

(** X23. The table of the new API extends the table of the old one:
    every identifier the old table knows has the same window in the new
    one, and the new one knows two more, "gpt-4-1106-preview" and
    "gpt-4-1106-vision-preview". *)
Theorem new_table_extends_old (identifier : string) :
  (forall n,
      OpenAIModel.lookup false identifier = inr n ->
      OpenAIModel.lookup true identifier = inr n)
  /\ (forall n,
        OpenAIModel.lookup true identifier = inr n ->
        OpenAIModel.lookup false identifier = inr n
        \/ ((identifier = "gpt-4-1106-preview" \/ identifier = "gpt-4-1106-vision-preview")
            /\ n = 4096
            /\ OpenAIModel.lookup false identifier = inl (KeyError identifier))).
Proof.
  unfold OpenAIModel.lookup, map_getitem. split; intros n H.
  - destruct (OpenAIModel.num_max_token_map false !! identifier) as [v|] eqn:Hv; [|done].
    injection H as ->. unfold OpenAIModel.num_max_token_map in Hv.
    apply elem_of_list_to_map_2 in Hv.
    repeat (apply elem_of_cons in Hv as [Hv|Hv];
            [injection Hv as -> ->; vm_compute; reflexivity|]).
    by apply elem_of_nil in Hv.
  - destruct (OpenAIModel.num_max_token_map true !! identifier) as [v|] eqn:Hv; [|done].
    injection H as ->. unfold OpenAIModel.num_max_token_map in Hv.
    apply elem_of_list_to_map_2 in Hv.
    repeat (apply elem_of_cons in Hv as [Hv|Hv];
            [injection Hv as -> ->; vm_compute;
             first [left; reflexivity | right; by auto]|]).
    by apply elem_of_nil in Hv.
Qed.

Lemma new_table_extends_old_witness :
  OpenAIModel.lookup true "gpt-4-32k" = inr 32768
  /\ (OpenAIModel.lookup false "gpt-4-1106-preview" = inr 4096
      \/ (("gpt-4-1106-preview" = "gpt-4-1106-preview"
           \/ "gpt-4-1106-preview" = "gpt-4-1106-vision-preview")
          /\ 4096 = 4096
          /\ OpenAIModel.lookup false "gpt-4-1106-preview"
             = inl (KeyError "gpt-4-1106-preview"))).
Proof.
  split.
  - apply (new_table_extends_old "gpt-4-32k"). vm_compute. reflexivity.
  - apply (new_table_extends_old "gpt-4-1106-preview"). vm_compute. reflexivity.
Defined.

(** ** Reading the messages in OpenAIModel.run *)

(** X24. The first message without a "content" that can be read makes
    [OpenAIModel.run] raise that error at line 80, whatever the model and
    the tokenizer are: nothing is written and no vendor is called. *)
Theorem run_message_without_content (X : OpenAIModel.externals) (self : OpenAIModel.t)
    (args : list pyval) (kwargs : gmap string pyval) (w : world)
    (before : list Message) (bad : pyval) (rest : list pyval) (e : exn) :
  kwargs !! "messages" = Some (PList (map message_dict before ++ bad :: rest)) ->
  getitem bad "content" = inl e ->
  OpenAIModel.run X self args kwargs w = (inl e, w).
Proof.
  intros Hk Hbad. apply run_raises_early.
  unfold OpenAIModel.budget, map_getitem. rewrite Hk. cbn [rbind].
  unfold OpenAIModel.num_prompt_tokens. cbn [iter_items rbind].
  rewrite comprehension_app, comprehension_contents. cbn [rbind comprehension].
  by rewrite Hbad.
Qed.

Lemma run_message_without_content_witness :
  OpenAIModel.run (example_externals true) (OpenAIModel.mk GPT_4 1%positive) []
    {[ "messages" := PList (map message_dict [mkMessage "user" "Hi"]
                              ++ PDict [("role", PStr "user")] :: [PNone]) ]}
    example_world
  = (inl (KeyError "content"), example_world).
Proof.
  apply (run_message_without_content (example_externals true)
           (OpenAIModel.mk GPT_4 1%positive) [] _ example_world
           [mkMessage "user" "Hi"] (PDict [("role", PStr "user")]) [PNone]).
  - vm_compute. reflexivity.
  - reflexivity.
Defined.

(** ** The module's globals *)

(** X25. Importing the module fails with [KeyError] exactly when the
    environment has no "openai_new_api"; when it succeeds, the new API is
    chosen exactly for the value "1", the client of the new API is given
    a base URL exactly when "BASE_URL" is set and not empty, and its key
    is "OPENAI_API_KEY" or, without one, "NO_OPENAI_KEY". *)
Theorem import_and_client (environ : gmap string string) :
  (Globals.import environ = inl (KeyError "openai_new_api")
   <-> environ !! "openai_new_api" = None)
  /\ (forall g,
        Globals.import environ = inr g ->
        (Globals.openai_new_api g = true <-> environ !! "openai_new_api" = Some "1")
        /\ (forall url,
              Globals.base_url (Globals.make_client g) = Some url
              <-> environ !! "BASE_URL" = Some url /\ url ≠ "")
        /\ Globals.api_key (Globals.make_client g)
           = default "NO_OPENAI_KEY" (environ !! "OPENAI_API_KEY")).
Proof.
  unfold Globals.import, map_getitem.
  destruct (environ !! "openai_new_api") as [flag|] eqn:Hflag; cbn [rbind].
  - split; [split; discriminate|].
    intros g [= <-]. cbn [Globals.openai_new_api]. split; [|split].
    + rewrite String.eqb_eq. split; congruence.
    + intros url. unfold Globals.make_client. cbn [Globals.BASE_URL].
      destruct (environ !! "BASE_URL") as [u|]; cbn [Globals.base_url].
      * destruct (String.eqb_spec u "") as [->|Hne]; cbn [Globals.base_url].
        -- split; [discriminate | intros [[= <-] H]; done].
        -- split; [intros [= <-]; done | intros [[= <-] _]; done].
      * split; [discriminate | intros [? _]; discriminate].
    + unfold Globals.make_client. cbn [Globals.BASE_URL Globals.OPENAI_API_KEY].
      destruct (environ !! "BASE_URL") as [u|]; [destruct (String.eqb u "")|];
        by destruct (environ !! "OPENAI_API_KEY").
  - split; [done | discriminate].
Qed.

Lemma import_and_client_witness :
  Globals.openai_new_api
    (Globals.mk true "sk-0" (Some "") "No_Ernie_Token") = true
  /\ Globals.base_url
       (Globals.make_client (Globals.mk true "sk-0" (Some "") "No_Ernie_Token")) = None
  /\ Globals.api_key
       (Globals.make_client (Globals.mk true "sk-0" (Some "") "No_Ernie_Token")) = "sk-0".
Proof.
  destruct (import_and_client
              {[ "openai_new_api" := "1"; "OPENAI_API_KEY" := "sk-0"; "BASE_URL" := "" ]})
    as [_ H].
  destruct (H (Globals.mk true "sk-0" (Some "") "No_Ernie_Token")) as (Hflag & Hurl & Hkey).
  - vm_compute. reflexivity.
  - split; [|split].
    + apply Hflag. vm_compute. reflexivity.
    + reflexivity.
    + rewrite Hkey. vm_compute. reflexivity.
Defined.
